(** * log_reader/read_log.py: a shallow embedding and its properties

    The module reads one HTCondor job event log and folds its event
    chunks into a job report.  The embedding follows the Python source
    function by function:

    - [parse_time]       (read_log.py, lines 11-30)
    - [parse_resources]  (read_log.py, lines 32-51)
    - [read_log]         (read_log.py, lines 53-111)
    - [main]             (read_log.py, lines 113-140)

    Modelling conventions.

    - Python 3 semantics.  A [str] is a Rocq [string]; the text is ASCII,
      so [str.isdigit] is "all characters in 0-9" and [str.isspace] /
      [\s] is the ASCII whitespace set of Python 3 (codes 9-13, 28-32).
    - [int] converts a string of at most 4300 digits, the default limit
      of CPython since 3.11 ([sys.get_int_max_str_digits()]); a longer one
      raises [ValueError].
    - An exception is a value of [exn]; a computation that may raise has
      type [result A].  Nothing in the module catches [ValueError],
      [IndexError] or [KeyError], so they propagate to the caller.
    - [datetime.now()] is the explicit argument [now]; one reading is used
      for a whole call of [read_log].
    - The file system is a function from paths to the text [open] would
      deliver, decoded and with its line ends translated to LF ([None]
      when [open] raises [IOError]).  Text written by [print] is not
      modelled; [VERBOSE] is the constant [False] of the source, so the
      branch for unknown codes does nothing. *)

From Stdlib Require Import ZArith List Ascii String Bool Lia.
From stdpp Require Import base option list gmap strings.

Local Open Scope string_scope.
Local Open Scope Z_scope.

(** ** Exceptions and results *)

Inductive exn : Set := ValueError | IndexError | KeyError.

Inductive result (A : Type) : Type :=
| Ok (a : A)
| Raise (e : exn).

Arguments Ok {A} a.
Arguments Raise {A} e.

#[global] Instance result_ret : MRet result := fun _ a => Ok a.
#[global] Instance result_bind : MBind result := fun _ _ f m =>
  match m with
  | Ok a => f a
  | Raise e => Raise e
  end.

(** [l[i]] for a non-negative literal index: [IndexError] out of range. *)
Definition getitem {A : Type} (l : list A) (i : nat) : result A :=
  match l !! i with
  | Some a => Ok a
  | None => Raise IndexError
  end.

(** ** Python string operations used by the module *)

Module Str.

Definition nl : ascii := "010"%char.

(** [c.isspace()] on ASCII (Python 3): TAB, LF, VT, FF, CR, FS, GS, RS,
    US and the space. *)
Definition is_space (c : ascii) : bool :=
  let n := N_of_ascii c in
  ((9 <=? n) && (n <=? 13) || (28 <=? n) && (n <=? 32))%N.

Definition is_digit (c : ascii) : bool :=
  let n := N_of_ascii c in ((48 <=? n) && (n <=? 57))%N.

Definition digit_val (c : ascii) : Z := Z.of_N (N_of_ascii c) - 48.

Fixpoint all_digits (s : string) : bool :=
  match s with
  | EmptyString => true
  | String c s' => is_digit c && all_digits s'
  end.

(** [s.isdigit()]: non-empty and made of digits only. *)
Definition isdigit (s : string) : bool :=
  match s with
  | EmptyString => false
  | _ => all_digits s
  end.

Fixpoint int_acc (acc : Z) (s : string) : Z :=
  match s with
  | EmptyString => acc
  | String c s' => int_acc (10 * acc + digit_val c) s'
  end.

Fixpoint lstrip (s : string) : string :=
  match s with
  | String c s' => if is_space c then lstrip s' else s
  | EmptyString => EmptyString
  end.

(** The number a string of digits denotes, blanks before it skipped. *)
Definition int_value (s : string) : Z := int_acc 0 (lstrip s).

(** [sys.get_int_max_str_digits()]: the default of CPython. *)
Definition max_str_digits : nat := 4300.

(** [int(s)] for the two shapes the module passes to it: a string of
    digits (guarded by [isdigit]) or a regular-expression group made of
    digits after an optional blank.  More digits than the interpreter
    converts raise [ValueError]. *)
Definition int (s : string) : result Z :=
  if (max_str_digits <? String.length (lstrip s))%nat then Raise ValueError
  else Ok (int_value s).

(** [s.startswith(p)] *)
Definition startswith (p s : string) : bool := String.prefix p s.

(** [p in s] *)
Fixpoint contains (p s : string) : bool :=
  startswith p s ||
  match s with
  | EmptyString => false
  | String _ s' => contains p s'
  end.

(** [s.split(sep)] for a one-character separator: every occurrence cuts,
    empty pieces are kept, the result is never empty. *)
Fixpoint split (sep : ascii) (s : string) : list string :=
  match s with
  | EmptyString => [EmptyString]
  | String c s' =>
      if Ascii.eqb c sep then EmptyString :: split sep s'
      else match split sep s' with
           | t :: ts => String c t :: ts
           | [] => [String c EmptyString]
           end
  end.

(** [s.split()]: cut at runs of whitespace, no empty piece.  [cur] is
    the piece being read. *)
Fixpoint split_ws_from (cur : string) (s : string) : list string :=
  match s with
  | EmptyString =>
      match cur with EmptyString => [] | _ => [cur] end
  | String c s' =>
      if is_space c then
        match cur with
        | EmptyString => split_ws_from EmptyString s'
        | _ => cur :: split_ws_from EmptyString s'
        end
      else split_ws_from (cur ++ String c EmptyString) s'
  end.

Definition split_ws (s : string) : list string := split_ws_from EmptyString s.

(** The lines a text file yields when iterated: each keeps its
    terminator, the last one may lack it. *)
Fixpoint lines_from (cur : string) (s : string) : list string :=
  match s with
  | EmptyString =>
      match cur with EmptyString => [] | _ => [cur] end
  | String c s' =>
      if Ascii.eqb c nl then (cur ++ String c EmptyString) :: lines_from EmptyString s'
      else lines_from (cur ++ String c EmptyString) s'
  end.

Definition file_lines (s : string) : list string := lines_from EmptyString s.

(** [s.rstrip()] and [s.strip()]: whitespace removed at the end, at
    both ends. *)
Fixpoint rstrip (s : string) : string :=
  match s with
  | EmptyString => EmptyString
  | String c s' =>
      match rstrip s' with
      | EmptyString => if is_space c then EmptyString else String c EmptyString
      | t => String c t
      end
  end.

Definition strip (s : string) : string := rstrip (lstrip s).

End Str.

(** ** [datetime] and [timedelta] *)

Record datetime : Set := mk_datetime {
  year : Z; month : Z; day : Z;
  hour : Z; minute : Z; second : Z
}.

Record timedelta : Set := mk_timedelta { days : Z; seconds : Z }.

Module DT.

Definition is_leap (y : Z) : bool :=
  (y mod 4 =? 0) && (negb (y mod 100 =? 0) || (y mod 400 =? 0)).

Definition days_in_month (y m : Z) : Z :=
  if m =? 2 then (if is_leap y then 29 else 28)
  else if (m =? 4) || (m =? 6) || (m =? 9) || (m =? 11) then 30
  else 31.

Definition days_before_year (y : Z) : Z :=
  let p := y - 1 in p * 365 + p / 4 - p / 100 + p / 400.

Definition days_before_month_table : list Z :=
  [-1; 0; 31; 59; 90; 120; 151; 181; 212; 243; 273; 304; 334].

Definition days_before_month (y m : Z) : Z :=
  nth (Z.to_nat m) days_before_month_table 0
  + (if (2 <? m) && is_leap y then 1 else 0).

Definition toordinal (d : datetime) : Z :=
  days_before_year (year d) + days_before_month (year d) (month d) + day d.

(** The range checks of the [datetime] constructor. *)
Definition valid (d : datetime) : bool :=
  (1 <=? year d) && (year d <=? 9999) &&
  (1 <=? month d) && (month d <=? 12) &&
  (1 <=? day d) && (day d <=? days_in_month (year d) (month d)) &&
  (0 <=? hour d) && (hour d <=? 23) &&
  (0 <=? minute d) && (minute d <=? 59) &&
  (0 <=? second d) && (second d <=? 59).

(** [datetime(y, m, d, H, M, S)] *)
Definition make (y m d H M S : Z) : result datetime :=
  let t := mk_datetime y m d H M S in
  if valid t then Ok t else Raise ValueError.

(** [t.replace(year=y)] builds a new object through the constructor. *)
Definition replace_year (t : datetime) (y : Z) : result datetime :=
  make y (month t) (day t) (hour t) (minute t) (second t).

(** [timedelta(days, seconds)] normalises to [0 <= seconds < 86400]. *)
Definition delta (d s : Z) : timedelta :=
  mk_timedelta (d + s / 86400) (s mod 86400).

Definition day_seconds (t : datetime) : Z :=
  second t + minute t * 60 + hour t * 3600.

(** [a - b] *)
Definition sub (a b : datetime) : timedelta :=
  delta (toordinal a - toordinal b) (day_seconds a - day_seconds b).

(** [a <= b]: comparison of the field tuples. *)
Definition fields (t : datetime) : list Z :=
  [year t; month t; day t; hour t; minute t; second t].

Fixpoint lex_leb (a b : list Z) : bool :=
  match a, b with
  | x :: a', y :: b' => (x <? y) || ((x =? y) && lex_leb a' b')
  | [], _ => true
  | _ :: _, [] => false
  end.

Definition leb (a b : datetime) : bool := lex_leb (fields a) (fields b).

End DT.

(** ** The regular expression behind [strptime]

    [datetime.strptime] turns its format into a regular expression,
    matches it at the start of the text with a backtracking matcher
    (alternatives tried left to right, [+] greedy), and rejects the text
    when the match stops before its end. *)

Module Re.

Inductive regex : Type :=
| Lit (c : ascii)
| Cls (p : ascii -> bool)
| Seq (r1 r2 : regex)
| Alt (r1 r2 : regex)
| Plus (p : ascii -> bool)
| Group (name : string) (r : regex).

Definition in_range (lo hi : ascii) (c : ascii) : bool :=
  ((N_of_ascii lo <=? N_of_ascii c) && (N_of_ascii c <=? N_of_ascii hi))%N.

(** One or more characters of a class, longest first. *)
Fixpoint plus {A : Type} (p : ascii -> bool) (s : string)
    (k : string -> option A) : option A :=
  match s with
  | String c s' =>
      if p c then
        match plus p s' k with
        | Some a => Some a
        | None => k s'
        end
      else None
  | EmptyString => None
  end.

(** [run r s g k]: match [r] at the start of [s], then hand the rest of
    the text and the groups to [k]; when [k] fails, try the next way of
    matching [r]. *)
Fixpoint run {A : Type} (r : regex) (s : string) (g : gmap string string)
    (k : string -> gmap string string -> option A) : option A :=
  match r with
  | Lit c =>
      match s with
      | String c' s' => if Ascii.eqb c' c then k s' g else None
      | EmptyString => None
      end
  | Cls p =>
      match s with
      | String c' s' => if p c' then k s' g else None
      | EmptyString => None
      end
  | Seq r1 r2 => run r1 s g (fun s' g' => run r2 s' g' k)
  | Alt r1 r2 =>
      match run r1 s g k with
      | Some a => Some a
      | None => run r2 s g k
      end
  | Plus p => plus p s (fun s' => k s' g)
  | Group name r1 =>
      run r1 s g (fun s' g' =>
        k s' (<[name := String.substring 0 (String.length s - String.length s') s]> g'))
  end.

(** [re.match]: the first match, as the unread text and the groups. *)
Definition rmatch (r : regex) (s : string) : option (string * gmap string string) :=
  run r s ∅ (fun s' g => Some (s', g)).

Definition d : regex := Cls Str.is_digit.
Definition rng (lo hi : ascii) : regex := Cls (in_range lo hi).

(** The directives of [_strptime.TimeRE] that the format uses. *)
Definition dir_Y : regex := Group "Y" (Seq d (Seq d (Seq d d))).
Definition dir_m : regex :=
  Group "m" (Alt (Seq (Lit "1") (rng "0" "2"))
            (Alt (Seq (Lit "0") (rng "1" "9")) (rng "1" "9"))).
Definition dir_d : regex :=
  Group "d" (Alt (Seq (Lit "3") (rng "0" "1"))
            (Alt (Seq (rng "1" "2") d)
            (Alt (Seq (Lit "0") (rng "1" "9"))
            (Alt (rng "1" "9") (Seq (Lit " ") (rng "1" "9")))))).
Definition dir_H : regex :=
  Group "H" (Alt (Seq (Lit "2") (rng "0" "3"))
            (Alt (Seq (rng "0" "1") d) d)).
Definition dir_M : regex := Group "M" (Alt (Seq (rng "0" "5") d) d).
Definition dir_S : regex :=
  Group "S" (Alt (Seq (Lit "6") (rng "0" "1"))
            (Alt (Seq (rng "0" "5") d) d)).

(** ['%Y-%m-%d %H:%M:%S']; the blank of the format becomes [\s+]. *)
Definition format_regex : regex :=
  Seq dir_Y (Seq (Lit "-") (Seq dir_m (Seq (Lit "-") (Seq dir_d
  (Seq (Plus Str.is_space)
  (Seq dir_H (Seq (Lit ":") (Seq dir_M (Seq (Lit ":") dir_S))))))))).

End Re.

(** [datetime.strptime(s, '%Y-%m-%d %H:%M:%S')].  The three ways it
    fails (no match, unconverted data, a field out of range for the date
    or the time) all raise [ValueError]. *)
Definition strptime (s : string) : result datetime :=
  match Re.rmatch Re.format_regex s with
  | None => Raise ValueError
  | Some (rest, g) =>
      match rest with
      | String _ _ => Raise ValueError
      | EmptyString =>
          let field name := Str.int (default EmptyString (g !! name)) in
          y ← field "Y";
          m ← field "m";
          d ← field "d";
          H ← field "H";
          M ← field "M";
          S ← field "S";
          DT.make y m d H M S
      end
  end.

(** ** [parse_time] *)

Definition parse_time (now : datetime) (line : string) : result datetime :=
  let line := Str.split " " line in
  t2 ← getitem line 2;
  t3 ← getitem line 3;
  let timeString := t2 ++ " " ++ t3 in
  date_object ← strptime timeString;
  if (month date_object =? 12) && (month now =? 1)
  then DT.replace_year date_object (year now - 1)
  else DT.replace_year date_object (year now).

(** ** [parse_resources] *)

(** [[int(s) for s in toks]]: every token is converted, in order. *)
Fixpoint ints (toks : list string) : result (list Z) :=
  match toks with
  | [] => Ok []
  | tok :: rest =>
      n ← Str.int tok;
      ns ← ints rest;
      Ok (n :: ns)
  end.

(** [[int(s) for s in line.split() if s.isdigit()]] *)
Definition numbers_of (line : string) : result (list Z) :=
  ints (List.filter Str.isdigit (Str.split_ws line)).

(** Lines 46-47 and 49-50: the list is built, then indexed at 0. *)
Definition first_number (line : string) : result Z :=
  numbers ← numbers_of line;
  getitem numbers 0.

(** The body of the loop over the lines of the chunk: two independent
    [if]s, each indexing [numbers[0]]. *)
Definition resources_line (usage : gmap string Z) (line : string)
    : result (gmap string Z) :=
  usage1 ←
    (if Str.contains "Disk" line then
       n ← first_number line;
       Ok (<["diskUsage" := n]> usage)
     else Ok usage);
  if Str.contains "Memory" line then
    n ← first_number line;
    Ok (<["memUsage" := n]> usage1)
  else Ok usage1.

Fixpoint resources_loop (usage : gmap string Z) (lines : list string)
    : result (gmap string Z) :=
  match lines with
  | [] => Ok usage
  | line :: rest =>
      usage' ← resources_line usage line;
      resources_loop usage' rest
  end.

Definition parse_resources (chunk : string) : result (gmap string Z) :=
  resources_loop ∅ (Str.split Str.nl chunk).

(** ** [read_log] *)

(** The dictionary [jobReport]: its keys are fixed by the source and each
    holds one type of value, so it is a record of optional fields. *)
Record JobReport : Type := mk_report {
  path : string;
  subTime : option datetime;
  execTime : option datetime;
  evictTime : option datetime;
  termTime : option datetime;
  abortedTime : option datetime;
  runTime : option Z;
  usage : option (gmap string Z)
}.

Definition set_subTime (t : datetime) (r : JobReport) : JobReport :=
  mk_report (path r) (Some t) (execTime r) (evictTime r) (termTime r)
            (abortedTime r) (runTime r) (usage r).
Definition set_execTime (t : datetime) (r : JobReport) : JobReport :=
  mk_report (path r) (subTime r) (Some t) (evictTime r) (termTime r)
            (abortedTime r) (runTime r) (usage r).
Definition set_evictTime (t : datetime) (r : JobReport) : JobReport :=
  mk_report (path r) (subTime r) (execTime r) (Some t) (termTime r)
            (abortedTime r) (runTime r) (usage r).
Definition set_termTime (t : datetime) (r : JobReport) : JobReport :=
  mk_report (path r) (subTime r) (execTime r) (evictTime r) (Some t)
            (abortedTime r) (runTime r) (usage r).
Definition set_abortedTime (t : datetime) (r : JobReport) : JobReport :=
  mk_report (path r) (subTime r) (execTime r) (evictTime r) (termTime r)
            (Some t) (runTime r) (usage r).
Definition set_runTime (n : Z) (r : JobReport) : JobReport :=
  mk_report (path r) (subTime r) (execTime r) (evictTime r) (termTime r)
            (abortedTime r) (Some n) (usage r).
Definition set_usage (u : gmap string Z) (r : JobReport) : JobReport :=
  mk_report (path r) (subTime r) (execTime r) (evictTime r) (termTime r)
            (abortedTime r) (runTime r) (Some u).

(** [jobReport = {}; jobReport["path"] = path] *)
Definition new_report (p : string) : JobReport :=
  mk_report p None None None None None None None.

(** [jobReport["execTime"]]: [KeyError] when the key is absent. *)
Definition get_execTime (r : JobReport) : result datetime :=
  match execTime r with
  | Some t => Ok t
  | None => Raise KeyError
  end.

(** [parse_time(chunk.split('\n')[0])] *)
Definition chunk_time (now : datetime) (chunk : string) : result datetime :=
  line ← getitem (Str.split Str.nl chunk) 0;
  parse_time now line.

(** [runTime.days * 86400 + runTime.seconds] *)
Definition total_seconds (d : timedelta) : Z := days d * 86400 + seconds d.

(** The [if]/[elif] chain run on a separator line (lines 81-104). *)
Definition dispatch (now : datetime) (chunk : string) (jobReport : JobReport)
    : result JobReport :=
  if Str.startswith "000" chunk then
    t ← chunk_time now chunk;
    Ok (set_subTime t jobReport)
  else if Str.startswith "001" chunk then
    t ← chunk_time now chunk;
    Ok (set_execTime t jobReport)
  else if Str.startswith "004" chunk then
    t ← chunk_time now chunk;
    let r1 := set_evictTime t jobReport in
    e ← get_execTime r1;
    let r2 := set_runTime (total_seconds (DT.sub t e)) r1 in
    u ← parse_resources chunk;
    Ok (set_usage u r2)
  else if Str.startswith "005" chunk then
    t ← chunk_time now chunk;
    let r1 := set_termTime t jobReport in
    e ← get_execTime r1;
    let r2 := set_runTime (total_seconds (DT.sub t e)) r1 in
    u ← parse_resources chunk;
    Ok (set_usage u r2)
  else if Str.startswith "006" chunk then
    Ok jobReport
  else if Str.startswith "009" chunk then
    t ← chunk_time now chunk;
    Ok (set_abortedTime t jobReport)
  else
    Ok jobReport.

(** One turn of [for line in logfile]; the state is [(chunk, jobReport)]. *)
Definition step (now : datetime) (st : string * JobReport) (line : string)
    : result (string * JobReport) :=
  if Str.startswith "..." line then
    jobReport ← dispatch now st.1 st.2;
    Ok (EmptyString, jobReport)
  else Ok (st.1 ++ line, st.2).

Fixpoint loop (now : datetime) (st : string * JobReport) (lines : list string)
    : result (string * JobReport) :=
  match lines with
  | [] => Ok st
  | line :: rest =>
      st' ← step now st line;
      loop now st' rest
  end.

(** [read_log(path)]: [Ok None] is the [return None] of the handler of
    [IOError], [Ok (Some r)] the returned report, [Raise e] an exception
    that leaves the function. *)
Definition read_log (fs : string -> option string) (now : datetime)
    (p : string) : result (option JobReport) :=
  match fs p with
  | None => Ok None
  | Some text =>
      st ← loop now (EmptyString, new_report p) (Str.file_lines text);
      Ok (Some st.2)
  end.

(** ** Notions used to state the properties *)

(** The chunks that reach the dispatch, in file order: the text gathered
    before each separator line.  What follows the last separator is never
    dispatched. *)
Fixpoint chunks_from (cur : string) (lines : list string) : list string :=
  match lines with
  | [] => []
  | line :: rest =>
      if Str.startswith "..." line then cur :: chunks_from EmptyString rest
      else chunks_from (cur ++ line) rest
  end.

Definition chunks_of (text : string) : list string :=
  chunks_from EmptyString (Str.file_lines text).

(** Dispatching a list of chunks in order. *)
Fixpoint dispatch_all (now : datetime) (cs : list string) (r : JobReport)
    : result JobReport :=
  match cs with
  | [] => Ok r
  | c :: rest =>
      r' ← dispatch now c r;
      dispatch_all now rest r'
  end.

(** Seconds from the start of day 0 of the proleptic calendar. *)
Definition timestamp (t : datetime) : Z :=
  DT.toordinal t * 86400 + DT.day_seconds t.

(** [before a b]: the fields of [a] come strictly first, read from the
    year down to the second. *)
Definition before (a b : datetime) : Prop :=
  year a < year b \/ (year a = year b /\
  (month a < month b \/ (month a = month b /\
  (day a < day b \/ (day a = day b /\
  (hour a < hour b \/ (hour a = hour b /\
  (minute a < minute b \/ (minute a = minute b /\
   second a < second b))))))))).

(** The six event codes and the first whitespace-delimited token of the
    first line of a chunk. *)
Definition codes : list string := ["000"; "001"; "004"; "005"; "006"; "009"].

Definition first_token (chunk : string) : option string :=
  match Str.split Str.nl chunk with
  | line :: _ => head (Str.split_ws line)
  | [] => None
  end.

Definition is_code (c : string) (chunk : string) : bool := Str.startswith c chunk.

Definition is_terminal (chunk : string) : bool :=
  is_code "004" chunk || is_code "005" chunk.

(** The value a successful computation returned, if any. *)
Definition value {A : Type} (m : result A) : option A :=
  match m with
  | Ok a => Some a
  | Raise _ => None
  end.

(** The last chunk of a list that satisfies [p]. *)
Definition last_of (p : string -> bool) (cs : list string) : option string :=
  last (List.filter p cs).

(** The date and time as written on the first line of a chunk: what
    [parse_time] reads before it replaces the year. *)
Definition written_time (chunk : string) : result datetime :=
  line ← getitem (Str.split Str.nl chunk) 0;
  let tokens := Str.split " " line in
  t2 ← getitem tokens 2;
  t3 ← getitem tokens 3;
  strptime (t2 ++ " " ++ t3).

(** The first whitespace-delimited token of a line that is a sequence of
    digits. *)
Definition first_numeric (line : string) : option string :=
  List.find Str.isdigit (Str.split_ws line).

(** The value the resource table gives for a keyword: read on the last
    line that contains it. *)
Definition table_value (keyword : string) (chunk : string) : option Z :=
  line ← last_of (Str.contains keyword) (Str.split Str.nl chunk);
  Str.int_value <$> first_numeric line.

(** No numeric token of the line has more digits than [int] converts. *)
Definition short_numbers (line : string) : bool :=
  forallb (fun tok => (String.length tok <=? Str.max_str_digits)%nat)
          (List.filter Str.isdigit (Str.split_ws line)).

(** [n] times the character [c]. *)
Fixpoint repeat_char (c : ascii) (n : nat) : string :=
  match n with
  | O => EmptyString
  | S n' => String c (repeat_char c n')
  end.

(** A line that mentions a resource keyword. *)
Definition resource_line (line : string) : bool :=
  Str.contains "Disk" line || Str.contains "Memory" line.

(** The shape [MM/DD]: two digits, a slash, two digits. *)
Definition month_day_shape (tok : string) : Prop :=
  exists m1 m2 d1 d2 : ascii,
    tok = String m1 (String m2 (String "/" (String d1 (String d2 EmptyString)))) /\
    Str.is_digit m1 = true /\ Str.is_digit m2 = true /\
    Str.is_digit d1 = true /\ Str.is_digit d2 = true.

(** ** Sample inputs *)

Module Sample.

Definition jan_2024 : datetime := mk_datetime 2024 1 5 9 30 0.
Definition dec_2023 : datetime := mk_datetime 2023 12 30 9 30 0.
Definition feb_2024 : datetime := mk_datetime 2024 2 1 9 30 0.

(** The line of the docstring of [parse_time]. *)
Definition docstring_line : string :=
  "001 (132663.000.000) 12/29 15:16:50 Job executing on host: <128.105.244.247:35219>".

(** The same event with the date written with its year. *)
Definition iso_line : string :=
  "001 (132663.000.000) 2023-12-29 15:16:50 Job executing on host: <128.105.244.247:35219>".

Definition table_chunk : string :=
  "005 (132663.000.000) 2023-12-29 16:00:00 Job terminated.
 Partitionable Resources :    Usage  Request Allocated
Disk Usage of job (KB)     :  1024  2048  50
Memory (MB)                :  512  1024
".

(** The two lines of the example alone. *)
Definition table_lines : string :=
  "Disk Usage of job (KB)     :  1024  2048  50
Memory (MB)                :  512  1024".

Definition no_table_chunk : string :=
  "005 (132663.000.000) 2023-12-29 16:00:00 Job terminated.
 (1) Normal termination (return value 0)
".

(** A first numeric token, then one of 4301 digits. *)
Definition long_number_chunk : string :=
  "Disk (KB)            :   5   " ++ repeat_char "1" 4301.

(** A numeric token of 4301 digits, then a keyword line without any. *)
Definition long_then_none_chunk : string :=
  "Disk " ++ repeat_char "1" 4301 ++ "
Memory n/a".

Definition no_number_chunk : string :=
  "005 (132663.000.000) 2023-12-29 16:00:00 Job terminated.
 Disk (KB)            :   n/a
".

(** A file system with one log. *)
Definition one_file (name text : string) : string -> option string :=
  fun p => if String.eqb p name then Some text else None.

(** A separator line. *)
Definition sep : string :=
  "...
".

(** Executing on 30 November, terminated on 1 December. *)
Definition autumn_000 : string :=
  "000 (7.000.000) 2023-11-30 23:50:00 Job submitted from host: <10.0.0.1:9618>
".
Definition autumn_001 : string :=
  "001 (7.000.000) 2023-11-30 23:59:00 Job executing on host: <10.0.0.2:9618>
".
Definition autumn_005 : string :=
  "005 (7.000.000) 2023-12-01 00:01:00 Job terminated.
Disk Usage of job (KB)     :  1024  2048  50
Memory (MB)                :  512  1024
".
Definition autumn_log : string :=
  autumn_000 ++ sep ++ autumn_001 ++ sep ++ autumn_005 ++ sep.

(** Executing, evicted, executing again, terminated. *)
Definition long_000 : string :=
  "000 (7.000.000) 2024-03-01 08:00:00 Job submitted from host: <10.0.0.1:9618>
".
Definition long_001a : string :=
  "001 (7.000.000) 2024-03-01 08:10:00 Job executing on host: <10.0.0.2:9618>
".
Definition long_006 : string :=
  "006 (7.000.000) 2024-03-01 08:11:00 Image size of job updated: 100
".
Definition long_004 : string :=
  "004 (7.000.000) 2024-03-01 09:10:00 Job was evicted.
Disk (KB)            :   70   80   90
Memory (MB)          :   10   20   30
".
Definition long_001b : string :=
  "001 (7.000.000) 2024-03-01 10:00:00 Job executing on host: <10.0.0.3:9618>
".
Definition long_005 : string :=
  "005 (7.000.000) 2024-03-02 10:00:30 Job terminated.
Disk (KB)            :   1024   2048   50
Memory (MB)          :   512   1024
".
Definition long_log : string :=
  long_000 ++ sep ++ long_001a ++ sep ++ long_006 ++ sep ++ long_004 ++ sep
  ++ long_001b ++ sep ++ long_005 ++ sep.

(** The report of [long_log] read in 2024. *)
Definition long_report : JobReport :=
  mk_report "job1/process.log"
    (Some (mk_datetime 2024 3 1 8 0 0))
    (Some (mk_datetime 2024 3 1 10 0 0))
    (Some (mk_datetime 2024 3 1 9 10 0))
    (Some (mk_datetime 2024 3 2 10 0 30))
    None
    (Some 86430)
    (Some (<["memUsage" := 512]> (<["diskUsage" := 1024]> ∅))).

(** A terminate event with no execute event before it. *)
Definition orphan_005 : string :=
  "005 (7.000.000) 2024-03-02 10:00:30 Job terminated.
".
Definition orphan_log : string := long_000 ++ sep ++ orphan_005 ++ sep.

Definition aborted_chunk : string :=
  "009 (7.000.000) 2024-03-02 11:00:00 Job was aborted by the user.
".

(** First token [0001]: not one of the six codes. *)
Definition long_code_chunk : string :=
  "0001 (7.000.000) 2024-03-01 08:00:00 Job submitted from host: <10.0.0.1:9618>
".

End Sample.

(** ** [main] (lines 113-140)

    [sys.argv] is the list [argv]; [glob.glob] is the function [glob]
    from a pattern to the paths it matches; what the program prints is
    the list of printed values, a string or an integer each; [sys.exit]
    ends the program with its code.  One reading of the clock serves
    the whole run. *)

Inductive printed : Type := PStr (s : string) | PInt (n : Z).

Inductive status : Set := Returned | Exited (code : Z).

(** What the bare [except:] of the loop swallows: an exception that
    left [read_log], the subscript of [None], or a missing key. *)
Inductive caught : Set :=
| ReadError (e : exn)
| NoneSubscript
| MissingKey.

Definition modes : list string := ["time"; "memory"; "disk"].

(** The [print] of the handler of [IOError] in [read_log] (line 110). *)
Definition read_log_print (fs : string -> option string) (p : string)
    : list printed :=
  match fs p with
  | None => [PStr ("Couldn't find file at " ++ p)]
  | Some _ => []
  end.

(** Lines 131-136: the field selected by [sys.argv[1]] is printed. *)
Definition select_field (mode : string) (dummy : option JobReport)
    : caught + list printed :=
  if String.eqb mode "time" then
    match dummy with
    | None => inl NoneSubscript
    | Some r =>
        match runTime r with
        | Some n => inr [PInt n]
        | None => inl MissingKey
        end
    end
  else if String.eqb mode "memory" then
    match dummy with
    | None => inl NoneSubscript
    | Some r =>
        match usage r with
        | None => inl MissingKey
        | Some u =>
            match u !! "memUsage" with
            | Some n => inr [PInt n]
            | None => inl MissingKey
            end
        end
    end
  else if String.eqb mode "disk" then
    match dummy with
    | None => inl NoneSubscript
    | Some r =>
        match usage r with
        | None => inl MissingKey
        | Some u =>
            match u !! "diskUsage" with
            | Some n => inr [PInt n]
            | None => inl MissingKey
            end
        end
    end
  else inr [].

(** The body of the [try] for one file. *)
Definition try_file (fs : string -> option string) (now : datetime)
    (mode f : string) : caught + list printed :=
  match read_log fs now f with
  | Raise e => inl (ReadError e)
  | Ok dummy => select_field mode dummy
  end.

(** What one turn of the loop prints: the message of [read_log], then
    the selected value unless an exception was swallowed. *)
Definition file_output (fs : string -> option string) (now : datetime)
    (mode f : string) : list printed :=
  read_log_print fs f ++
  match try_file fs now mode f with
  | inr out => out
  | inl _ => []
  end.

Fixpoint main_loop (fs : string -> option string) (now : datetime)
    (mode : string) (files : list string) : list printed :=
  match files with
  | [] => []
  | f :: rest => file_output fs now mode f ++ main_loop fs now mode rest
  end.

(** Lines 122-126: the pattern given on the command line, or the
    default one, stripped. *)
Definition main_pattern (argv : list string) : string :=
  let pattern :=
    if (2 <? length argv)%nat then nth 2 argv EmptyString
    else "job*/process.log" in
  Str.strip pattern.

Definition main (fs : string -> option string) (glob : string -> list string)
    (now : datetime) (argv : list string) : list printed * status :=
  if (length argv <=? 1)%nat
     || negb (existsb (String.eqb (nth 1 argv EmptyString)) modes)
  then ([PStr "Invalid selection! Please specify mode (time/memory)"], Exited 1)
  else
    let pattern := main_pattern argv in
    (main_loop fs now (nth 1 argv EmptyString) (glob pattern), Returned).

(** ** Further notions used to state properties *)

(** The chunks whose first line is read as a time: every code but 006. *)
Definition timed (chunk : string) : bool :=
  is_code "000" chunk || is_code "001" chunk || is_code "004" chunk
  || is_code "005" chunk || is_code "009" chunk.

(** Only the two keys, only values that are not negative. *)
Definition usage_ok (u : gmap string Z) : Prop :=
  forall k n, u !! k = Some n ->
    (k = "diskUsage" \/ k = "memUsage") /\ 0 <= n.

(** Every line of the text has its terminator (so does the empty text). *)
Fixpoint lines_terminated (s : string) : bool :=
  match s with
  | EmptyString => true
  | String c EmptyString => Ascii.eqb c Str.nl
  | String _ s' => lines_terminated s'
  end.

(** The concatenation of a list of strings. *)
Definition join (l : list string) : string := foldr String.append EmptyString l.

(** The time fields a report holds. *)
Definition report_times (r : JobReport) : list (option datetime) :=
  [subTime r; execTime r; evictTime r; termTime r; abortedTime r].

(** What holds of every report [read_log] returns: the run time and
    the usage come together, with a terminal time and an execution time;
    the times are calendar times; the usage has the two keys at most. *)
Definition report_ok (r : JobReport) : Prop :=
  (is_Some (runTime r) <-> is_Some (usage r)) /\
  (is_Some (runTime r) <-> is_Some (evictTime r) \/ is_Some (termTime r)) /\
  (is_Some (runTime r) -> is_Some (execTime r)) /\
  (forall t, In (Some t) (report_times r) -> DT.valid t = true) /\
  (forall u, usage r = Some u -> usage_ok u).

(** The separator lines of a file, and the text left in the buffer at
    the end of the file, which is never dispatched. *)
Definition separators (lines : list string) : list string :=
  List.filter (Str.startswith "...") lines.

Fixpoint trailing_from (cur : string) (lines : list string) : string :=
  match lines with
  | [] => cur
  | line :: rest =>
      if Str.startswith "..." line then trailing_from EmptyString rest
      else trailing_from (cur ++ line) rest
  end.

(** Chunks and separator lines put back in file order. *)
Fixpoint weave (chunks seps : list string) : string :=
  match chunks, seps with
  | c :: chunks', s :: seps' => c ++ s ++ weave chunks' seps'
  | _, _ => EmptyString
  end.

(** Some sample inputs for the properties below. *)
Module Sample2.

Definition leap_line : string :=
  "001 (7.000.000) 2024-02-29 10:00:00 Job executing on host: <10.0.0.2:9618>".

Definition short_line : string := "001 (7.000.000) 2024-02-29".

(** [long_log] without its 006 chunk and with a chunk of unknown code. *)
Definition long_log_variant : string :=
  Sample.long_000 ++ Sample.sep ++ Sample.long_001a ++ Sample.sep
  ++ "012 (7.000.000) 2024-03-01 08:30:00 Job was held.
" ++ Sample.sep ++ Sample.long_004 ++ Sample.sep
  ++ Sample.long_001b ++ Sample.sep ++ Sample.long_005 ++ Sample.sep.

(** A log that stops after the execute event. *)
Definition running_log : string :=
  Sample.long_000 ++ Sample.sep ++ Sample.long_001a ++ Sample.sep.

Definition disk : string -> option string :=
  fun p =>
    if String.eqb p "job1/process.log" then Some Sample.long_log
    else if String.eqb p "job2/process.log" then Some running_log
    else if String.eqb p "job3/process.log" then Some Sample.orphan_log
    else None.

Definition glob_jobs : string -> list string :=
  fun pattern =>
    if String.eqb pattern "job*/process.log"
    then ["job1/process.log"; "job2/process.log"; "job3/process.log";
          "job4/process.log"]
    else [].

End Sample2.

(** * Properties *)

(** ** The result monad *)

Lemma bind_Ok {A B : Type} (f : A -> result B) (a : A) :
  (Ok a ≫= f) = f a.
Proof. reflexivity. Qed.

Lemma bind_Raise {A B : Type} (f : A -> result B) (e : exn) :
  (Raise e ≫= f) = Raise e.
Proof. reflexivity. Qed.

Lemma bind_Ok_inv {A B : Type} (m : result A) (f : A -> result B) (b : B) :
  (m ≫= f) = Ok b -> exists a, m = Ok a /\ f a = Ok b.
Proof. destruct m as [a|e]; simpl; [eauto | discriminate]. Qed.

(** Splits a successful bind met in a hypothesis into its two steps. *)
Ltac inv_bind H :=
  let a := fresh "a" in
  let Ha := fresh "Ha" in
  apply bind_Ok_inv in H; destruct H as (a & Ha & H).

(** ** Prefixes *)

Lemma startswith_substring (p s : string) :
  Str.startswith p s = true <-> String.substring 0 (String.length p) s = p.
Proof. unfold Str.startswith. apply String.prefix_correct. Qed.

(** Two prefixes of one text that have the same length are equal. *)
Lemma startswith_same_length (p q s : string) :
  String.length p = String.length q ->
  Str.startswith p s = true -> Str.startswith q s = true -> p = q.
Proof.
  intros Hlen Hp Hq.
  apply startswith_substring in Hp. apply startswith_substring in Hq.
  rewrite <- Hp, <- Hq, Hlen. reflexivity.
Qed.

Lemma code_exclusive (p q s : string) :
  String.length p = String.length q -> p <> q ->
  Str.startswith p s = true -> Str.startswith q s = false.
Proof.
  intros Hlen Hne Hp.
  destruct (Str.startswith q s) eqn:Hq; [|reflexivity].
  exfalso. apply Hne. eauto using startswith_same_length.
Qed.

(** The test of a three-character code reads the first three
    characters of the text and nothing else. *)
Lemma code_test_three_chars (c s s' : string) :
  String.length c = 3%nat ->
  String.substring 0 3 s = String.substring 0 3 s' ->
  Str.startswith c s = Str.startswith c s'.
Proof.
  intros Hlen Hsub.
  destruct (Str.startswith c s) eqn:H1, (Str.startswith c s') eqn:H2;
    try reflexivity.
  - apply startswith_substring in H1. rewrite Hlen, Hsub in H1.
    rewrite <- Hlen in H1. apply startswith_substring in H1. congruence.
  - apply startswith_substring in H2. rewrite Hlen, <- Hsub in H2.
    rewrite <- Hlen in H2. apply startswith_substring in H2. congruence.
Qed.

(** Rewrites the tests of the other codes to [false] once one code is
    known to start the chunk. *)
Ltac other_codes H :=
  repeat match goal with
  | |- context [Str.startswith ?q ?s] =>
      lazymatch type of H with
      | Str.startswith ?p s = true =>
          lazymatch q with
          | p => fail
          | _ => rewrite (code_exclusive p q s eq_refl ltac:(discriminate) H)
          end
      end
  end.

(** ** [parse_time] *)

(** [strptime] needs four digits of a year at the start of the text: a
    text whose third character is not a digit is rejected. *)
Lemma strptime_third_not_digit (a b c : ascii) (rest : string) :
  Str.is_digit c = false ->
  strptime (String a (String b (String c rest))) = Raise ValueError.
Proof.
  intros Hc. unfold strptime, Re.rmatch, Re.format_regex, Re.dir_Y, Re.d.
  cbn [Re.run].
  destruct (Str.is_digit a); [|reflexivity].
  destruct (Str.is_digit b); [|reflexivity].
  rewrite Hc. reflexivity.
Qed.

(** Whatever [parse_time] returns went through the constructor. *)
Lemma make_valid (y m d H M S : Z) (t : datetime) :
  DT.make y m d H M S = Ok t -> DT.valid t = true.
Proof.
  unfold DT.make. destruct (DT.valid _) eqn:Hv; [|discriminate].
  intros [= <-]. exact Hv.
Qed.

Lemma make_year (y m d H M S : Z) (t : datetime) :
  DT.make y m d H M S = Ok t -> t = mk_datetime y m d H M S.
Proof.
  unfold DT.make. destruct (DT.valid _); [|discriminate]. congruence.
Qed.

Lemma parse_time_valid (now : datetime) (line : string) (t : datetime) :
  parse_time now line = Ok t -> DT.valid t = true.
Proof.
  unfold parse_time. intros H.
  inv_bind H. inv_bind H. inv_bind H.
  destruct (_ && _); eauto using make_valid.
Qed.

(** The year rule of lines 26-29, on whatever date was read: December
    seen in January belongs to the year before, anything else to the
    year of [now]. *)
Lemma parse_time_year (now : datetime) (line : string) (t : datetime) :
  parse_time now line = Ok t ->
  year t = (if (month t =? 12) && (month now =? 1)
            then year now - 1 else year now).
Proof.
  unfold parse_time. intros H.
  inv_bind H. inv_bind H. inv_bind H.
  destruct ((month a1 =? 12) && (month now =? 1)) eqn:Hc;
    apply make_year in H; subst t; simpl; rewrite Hc; reflexivity.
Qed.

(** With the date written as [YYYY-MM-DD] the two readings of the
    clock named by the specification both give the year 2023. *)
Lemma parse_time_iso_line :
  year <$> value (parse_time Sample.jan_2024 Sample.iso_line) = Some 2023 /\
  year <$> value (parse_time Sample.dec_2023 Sample.iso_line) = Some 2023.
Proof. split; vm_compute; reflexivity. Qed.

(** C1 (the code departs from the claim).  The line of the docstring of
    [parse_time], whose third and fourth tokens are [12/29] and
    [15:16:50], does not resolve to a timestamp of the year 2023: with
    the clock at 2024-01-05 and with the clock at 2023-12-30 the call
    raises [ValueError], because the format given to [strptime] starts
    with a four-digit year. *)
Theorem C1_docstring_line_raises :
  parse_time Sample.jan_2024 Sample.docstring_line = Raise ValueError /\
  parse_time Sample.dec_2023 Sample.docstring_line = Raise ValueError.
Proof. split; vm_compute; reflexivity. Qed.

(** C2 (the code departs from the claim).  Every line whose third token
    has the shape [MM/DD] and that has a fourth token makes [parse_time]
    raise [ValueError], whatever the values and whatever the clock: no
    fragment of the documented shape is accepted. *)
Theorem C2_month_day_fragment_raises (now : datetime) (line t2 t3 : string) :
  getitem (Str.split " " line) 2 = Ok t2 ->
  getitem (Str.split " " line) 3 = Ok t3 ->
  month_day_shape t2 ->
  parse_time now line = Raise ValueError.
Proof.
  intros H2 H3 (m1 & m2 & d1 & d2 & -> & _).
  unfold parse_time. rewrite H2, H3. cbn [mbind result_bind].
  change (String m1 (String m2 (String "/" (String d1 (String d2 "")))) ++ " " ++ t3)
    with (String m1 (String m2 (String "/" (String d1 (String d2 (" " ++ t3)))))).
  rewrite strptime_third_not_digit by reflexivity. reflexivity.
Qed.

Lemma C2_month_day_fragment_raises_witness :
  parse_time Sample.jan_2024 Sample.docstring_line = Raise ValueError.
Proof.
  apply (C2_month_day_fragment_raises Sample.jan_2024 Sample.docstring_line
           "12/29" "15:16:50").
  - reflexivity.
  - reflexivity.
  - exists "1"%char, "2"%char, "2"%char, "9"%char. repeat split; reflexivity.
Defined.

(** ** The loop of [read_log] and the list of dispatched chunks *)

Lemma loop_dispatch_all (now : datetime) (lines : list string) :
  forall (cur : string) (r : JobReport),
    match loop now (cur, r) lines with
    | Ok st => dispatch_all now (chunks_from cur lines) r = Ok st.2
    | Raise e => dispatch_all now (chunks_from cur lines) r = Raise e
    end.
Proof.
  induction lines as [|line rest IH]; intros cur r; simpl.
  - reflexivity.
  - unfold step. simpl. destruct (Str.startswith "..." line); simpl.
    + destruct (dispatch now cur r) as [r'|e]; simpl; [|reflexivity].
      apply IH.
    + apply IH.
Qed.

(** Reading a file that opens is dispatching its chunks in order from
    the report that only holds the path. *)
Lemma read_log_chunks (fs : string -> option string) (now : datetime)
    (p text : string) :
  fs p = Some text ->
  read_log fs now p =
    (r ← dispatch_all now (chunks_of text) (new_report p); Ok (Some r)).
Proof.
  intros Hfs. unfold read_log, chunks_of. rewrite Hfs.
  pose proof (loop_dispatch_all now (Str.file_lines text) "" (new_report p)) as H.
  destruct (loop now _ _) as [st|e]; rewrite H; reflexivity.
Qed.

Lemma dispatch_all_app (now : datetime) (cs1 cs2 : list string) :
  forall r : JobReport,
    dispatch_all now (cs1 ++ cs2) r =
      (r' ← dispatch_all now cs1 r; dispatch_all now cs2 r').
Proof.
  induction cs1 as [|c cs1 IH]; intros r; simpl; [reflexivity|].
  destruct (dispatch now c r) as [r'|e]; simpl; [apply IH | reflexivity].
Qed.

(** ** The effect of one dispatch on each field *)

Section Dispatch.

Variable now : datetime.

(** A chunk that starts with none of the six codes, or with 006, leaves
    the report as it is. *)
Lemma dispatch_other (chunk : string) (r : JobReport) :
  Str.startswith "000" chunk = false ->
  Str.startswith "001" chunk = false ->
  Str.startswith "004" chunk = false ->
  Str.startswith "005" chunk = false ->
  Str.startswith "009" chunk = false ->
  dispatch now chunk r = Ok r.
Proof.
  intros H0 H1 H4 H5 H9. unfold dispatch.
  rewrite H0, H1, H4, H5, H9. destruct (Str.startswith "006" chunk); reflexivity.
Qed.

Lemma dispatch_000 (chunk : string) (r : JobReport) :
  Str.startswith "000" chunk = true ->
  dispatch now chunk r = (t ← chunk_time now chunk; Ok (set_subTime t r)).
Proof. intros H. unfold dispatch. rewrite H. reflexivity. Qed.

Lemma dispatch_001 (chunk : string) (r : JobReport) :
  Str.startswith "001" chunk = true ->
  dispatch now chunk r = (t ← chunk_time now chunk; Ok (set_execTime t r)).
Proof. intros H. unfold dispatch. other_codes H. rewrite H. reflexivity. Qed.

Lemma dispatch_004 (chunk : string) (r : JobReport) :
  Str.startswith "004" chunk = true ->
  dispatch now chunk r =
    (t ← chunk_time now chunk;
     e ← get_execTime r;
     u ← parse_resources chunk;
     Ok (set_usage u (set_runTime (total_seconds (DT.sub t e)) (set_evictTime t r)))).
Proof. intros H. unfold dispatch. other_codes H. rewrite H. reflexivity. Qed.

Lemma dispatch_005 (chunk : string) (r : JobReport) :
  Str.startswith "005" chunk = true ->
  dispatch now chunk r =
    (t ← chunk_time now chunk;
     e ← get_execTime r;
     u ← parse_resources chunk;
     Ok (set_usage u (set_runTime (total_seconds (DT.sub t e)) (set_termTime t r)))).
Proof. intros H. unfold dispatch. other_codes H. rewrite H. reflexivity. Qed.

Lemma dispatch_006 (chunk : string) (r : JobReport) :
  Str.startswith "006" chunk = true -> dispatch now chunk r = Ok r.
Proof. intros H. unfold dispatch. other_codes H. rewrite H. reflexivity. Qed.

Lemma dispatch_009 (chunk : string) (r : JobReport) :
  Str.startswith "009" chunk = true ->
  dispatch now chunk r = (t ← chunk_time now chunk; Ok (set_abortedTime t r)).
Proof. intros H. unfold dispatch. other_codes H. rewrite H. reflexivity. Qed.

End Dispatch.

(** What one successful dispatch does to every field of the report. *)
Lemma dispatch_fields (now : datetime) (c : string) (r r' : JobReport) :
  dispatch now c r = Ok r' ->
  path r' = path r /\
  subTime r' = (if is_code "000" c then value (chunk_time now c) else subTime r) /\
  execTime r' = (if is_code "001" c then value (chunk_time now c) else execTime r) /\
  evictTime r' = (if is_code "004" c then value (chunk_time now c) else evictTime r) /\
  termTime r' = (if is_code "005" c then value (chunk_time now c) else termTime r) /\
  abortedTime r' = (if is_code "009" c then value (chunk_time now c) else abortedTime r) /\
  usage r' = (if is_terminal c then value (parse_resources c) else usage r) /\
  runTime r' = (if is_terminal c
                then t ← value (chunk_time now c);
                     e ← execTime r;
                     Some (total_seconds (DT.sub t e))
                else runTime r).
Proof.
  intros H. unfold is_terminal, is_code.
  destruct (Str.startswith "000" c) eqn:H0.
  { rewrite dispatch_000 in H by assumption. inv_bind H. injection H as <-.
    other_codes H0. rewrite Ha. simpl. repeat split. }
  destruct (Str.startswith "001" c) eqn:H1.
  { rewrite dispatch_001 in H by assumption. inv_bind H. injection H as <-.
    other_codes H1. rewrite Ha. simpl. repeat split. }
  destruct (Str.startswith "004" c) eqn:H4.
  { rewrite dispatch_004 in H by assumption.
    inv_bind H. inv_bind H. inv_bind H. injection H as <-.
    other_codes H4. rewrite Ha, Ha1. simpl.
    unfold get_execTime in Ha0. destruct (execTime r); [|discriminate].
    injection Ha0 as ->. repeat split. }
  destruct (Str.startswith "005" c) eqn:H5.
  { rewrite dispatch_005 in H by assumption.
    inv_bind H. inv_bind H. inv_bind H. injection H as <-.
    other_codes H5. rewrite Ha, Ha1. simpl.
    unfold get_execTime in Ha0. destruct (execTime r); [|discriminate].
    injection Ha0 as ->. repeat split. }
  destruct (Str.startswith "009" c) eqn:H9.
  { rewrite dispatch_009 in H by assumption. inv_bind H. injection H as <-.
    rewrite Ha. simpl. repeat split. }
  rewrite dispatch_other in H by assumption. injection H as <-.
  simpl. repeat split.
Qed.

(** ** [read_log]: failure to open *)



(** A file that opened never yields the absent result. *)
Lemma read_log_opened_not_None (fs : string -> option string)
    (now : datetime) (p text : string) :
  fs p = Some text -> read_log fs now p <> Ok None.
Proof.
  intros H. rewrite (read_log_chunks _ _ _ _ H).
  destruct (dispatch_all _ _ _); discriminate.
Qed.

(** ** Dispatch of single chunks *)

(** C6.  A chunk that starts with 009 sets [abortedTime] to the time of
    its first line and changes no other field: [runTime] keeps its value
    whether or not [execTime] is present.  When the time cannot be read
    the error of [parse_time] leaves the dispatch. *)
Theorem C6_aborted_sets_only_abortedTime (now : datetime) (chunk : string)
    (r : JobReport) :
  Str.startswith "009" chunk = true ->
  match chunk_time now chunk with
  | Ok t =>
      exists r', dispatch now chunk r = Ok r' /\
        abortedTime r' = Some t /\ runTime r' = runTime r /\
        path r' = path r /\ subTime r' = subTime r /\
        execTime r' = execTime r /\ evictTime r' = evictTime r /\
        termTime r' = termTime r /\ usage r' = usage r
  | Raise e => dispatch now chunk r = Raise e
  end.
Proof.
  intros H. rewrite (dispatch_009 now chunk r H).
  destruct (chunk_time now chunk) as [t|e]; simpl; [|reflexivity].
  exists (set_abortedTime t r). repeat split.
Qed.

Lemma C6_aborted_sets_only_abortedTime_witness :
  let r := set_runTime 3600 (set_execTime (mk_datetime 2024 3 2 10 0 0)
                               (new_report "job1/process.log")) in
  Str.startswith "009" Sample.aborted_chunk = true /\
  exists r', dispatch Sample.feb_2024 Sample.aborted_chunk r = Ok r' /\
    abortedTime r' = Some (mk_datetime 2024 3 2 11 0 0) /\
    runTime r' = Some 3600 /\
    path r' = path r /\ subTime r' = subTime r /\
    execTime r' = execTime r /\ evictTime r' = evictTime r /\
    termTime r' = termTime r /\ usage r' = usage r.
Proof.
  split; [reflexivity|].
  exact (C6_aborted_sets_only_abortedTime Sample.feb_2024 Sample.aborted_chunk
           (set_runTime 3600 (set_execTime (mk_datetime 2024 3 2 10 0 0)
                                (new_report "job1/process.log")))
           eq_refl).
Defined.

(** C7 as stated fails: the first token of the chunk below is [0001],
    which is none of the six codes, and yet the chunk is taken for a
    submission and sets [subTime]. *)
Lemma C7_first_token_counterexample :
  first_token Sample.long_code_chunk = Some "0001" /\
  ~ In "0001" codes /\
  subTime (new_report "job1/process.log") = None /\
  (subTime <$> value (dispatch Sample.feb_2024 Sample.long_code_chunk
                        (new_report "job1/process.log")))
    = Some (Some (mk_datetime 2024 3 1 8 0 0)).
Proof.
  split; [reflexivity|]. split.
  - unfold codes. simpl. intros H.
    repeat (destruct H as [H|H]; [discriminate H|]). exact H.
  - split; reflexivity.
Qed.

(** C7, amended.  The branch is chosen by the three characters that
    begin the chunk: a chunk that starts with 000, 001, 004, 005 or 009
    takes the action of that code, whatever follows the three characters;
    a chunk that starts with 006 or with none of the six codes leaves the
    report unchanged; two chunks with the same first three characters
    pass the same tests. *)
Theorem C7_prefix_classification (now : datetime) (chunk : string)
    (r : JobReport) :
  (forall chunk' c, In c codes ->
     String.substring 0 3 chunk' = String.substring 0 3 chunk ->
     Str.startswith c chunk' = Str.startswith c chunk) /\
  ((forall c, In c codes -> c <> "006" -> Str.startswith c chunk = false) ->
     dispatch now chunk r = Ok r) /\
  (Str.startswith "006" chunk = true -> dispatch now chunk r = Ok r) /\
  (Str.startswith "000" chunk = true ->
     dispatch now chunk r = (t ← chunk_time now chunk; Ok (set_subTime t r))) /\
  (Str.startswith "001" chunk = true ->
     dispatch now chunk r = (t ← chunk_time now chunk; Ok (set_execTime t r))) /\
  (Str.startswith "004" chunk = true ->
     dispatch now chunk r =
       (t ← chunk_time now chunk;
        e ← get_execTime r;
        u ← parse_resources chunk;
        Ok (set_usage u (set_runTime (total_seconds (DT.sub t e))
                           (set_evictTime t r))))) /\
  (Str.startswith "005" chunk = true ->
     dispatch now chunk r =
       (t ← chunk_time now chunk;
        e ← get_execTime r;
        u ← parse_resources chunk;
        Ok (set_usage u (set_runTime (total_seconds (DT.sub t e))
                           (set_termTime t r))))) /\
  (Str.startswith "009" chunk = true ->
     dispatch now chunk r = (t ← chunk_time now chunk; Ok (set_abortedTime t r))).
Proof.
  split.
  { intros chunk' c Hc Hsub. apply code_test_three_chars; [|exact Hsub].
    unfold codes in Hc. simpl in Hc.
    repeat (destruct Hc as [<-|Hc]; [reflexivity|]). destruct Hc. }
  split.
  { intros H. apply dispatch_other; apply H; unfold codes; simpl;
      solve [tauto | discriminate]. }
  split; [apply dispatch_006|]. split; [apply dispatch_000|].
  split; [apply dispatch_001|]. split; [apply dispatch_004|].
  split; [apply dispatch_005|]. apply dispatch_009.
Qed.

Lemma C7_prefix_classification_witness :
  Str.startswith "000" Sample.long_code_chunk = true /\
  dispatch Sample.feb_2024 Sample.long_code_chunk (new_report "job1/process.log")
    = (t ← chunk_time Sample.feb_2024 Sample.long_code_chunk;
       Ok (set_subTime t (new_report "job1/process.log"))).
Proof.
  split; [reflexivity|].
  apply (proj1 (proj2 (proj2 (proj2
           (C7_prefix_classification Sample.feb_2024 Sample.long_code_chunk
              (new_report "job1/process.log")))))).
  reflexivity.
Defined.

(** ** Folding a list of chunks *)

Lemma last_of_cons (p : string -> bool) (c : string) (cs : list string) :
  last_of p (c :: cs) =
    match last_of p cs with
    | Some c' => Some c'
    | None => if p c then Some c else None
    end.
Proof.
  unfold last_of. simpl. destruct (p c); [|destruct (last _); reflexivity].
  apply last_cons.
Qed.

Lemma last_of_app (p : string -> bool) (cs1 cs2 : list string) :
  last_of p (cs1 ++ cs2) =
    match last_of p cs2 with
    | Some c => Some c
    | None => last_of p cs1
    end.
Proof. unfold last_of. rewrite List.filter_app. apply last_app. Qed.

Lemma last_of_none (p : string -> bool) (cs : list string) :
  (forall c, In c cs -> p c = false) -> last_of p cs = None.
Proof.
  induction cs as [|c cs IH]; intros H; [reflexivity|].
  rewrite last_of_cons.
  rewrite IH by (intros c' Hc'; apply H; right; exact Hc').
  rewrite H by (left; reflexivity). reflexivity.
Qed.

Lemma last_of_Some (p : string -> bool) (cs : list string) (c : string) :
  last_of p cs = Some c -> In c cs /\ p c = true.
Proof.
  unfold last_of. intros H. apply last_Some in H as [l' Hl].
  apply List.filter_In. rewrite Hl. apply in_or_app. right. left. reflexivity.
Qed.

(** A field that each dispatch either sets from the chunk (chunks that
    satisfy [p]) or leaves alone holds, after a run, what the last chunk
    satisfying [p] gave it. *)
Lemma dispatch_all_field {X : Type} (now : datetime)
    (field : JobReport -> option X) (p : string -> bool)
    (f : string -> option X) :
  (forall c r r', dispatch now c r = Ok r' ->
     field r' = if p c then f c else field r) ->
  forall cs r r', dispatch_all now cs r = Ok r' ->
    field r' = match last_of p cs with
               | Some c => f c
               | None => field r
               end.
Proof.
  intros Hstep. induction cs as [|c cs IH]; intros r r' H; simpl in H.
  - injection H as <-. reflexivity.
  - inv_bind H. rewrite (IH _ _ H), last_of_cons.
    destruct (last_of p cs); [reflexivity|].
    rewrite (Hstep _ _ _ Ha). destruct (p c); reflexivity.
Qed.

Lemma dispatch_all_execTime (now : datetime) (cs : list string)
    (r r' : JobReport) :
  dispatch_all now cs r = Ok r' ->
  execTime r' = match last_of (is_code "001") cs with
                | Some c => value (chunk_time now c)
                | None => execTime r
                end.
Proof.
  apply (dispatch_all_field now execTime (is_code "001")
           (fun c => value (chunk_time now c))).
  intros c r0 r1 H. apply (dispatch_fields now c r0 r1 H).
Qed.

(** A terminal chunk met while the report has no [execTime]. *)
Lemma dispatch_terminal_no_execTime (now : datetime) (c : string)
    (r : JobReport) :
  is_terminal c = true -> execTime r = None ->
  dispatch now c r = match chunk_time now c with
                     | Ok _ => Raise KeyError
                     | Raise e => Raise e
                     end.
Proof.
  unfold is_terminal, is_code. intros Hc He.
  apply orb_true_iff in Hc as [Hc|Hc];
    [rewrite dispatch_004 by assumption | rewrite dispatch_005 by assumption];
    unfold get_execTime; rewrite He;
    destruct (chunk_time now c); reflexivity.
Qed.

(** C4.  When a chunk that starts with 004 or 005 is dispatched on a
    report without [execTime], the dispatch raises: [KeyError] when the
    time of the chunk was read, the error of [parse_time] otherwise; no
    run time is made up.  Hence a log in which such a chunk has no 001
    chunk before it makes [read_log] raise: it returns neither a report
    nor the [None] of a file that cannot be opened. *)
Theorem C4_terminal_without_execTime_raises (fs : string -> option string)
    (now : datetime) (p text : string) (pre post : list string) (c : string) :
  fs p = Some text ->
  chunks_of text = (pre ++ c :: post)%list ->
  is_terminal c = true ->
  (forall c', In c' pre -> is_code "001" c' = false) ->
  (forall r, execTime r = None ->
     dispatch now c r = match chunk_time now c with
                        | Ok _ => Raise KeyError
                        | Raise e => Raise e
                        end) /\
  (exists e, read_log fs now p = Raise e) /\
  read_log fs now p <> Ok None /\
  (forall r, read_log fs now p <> Ok (Some r)).
Proof.
  intros Hfs Hcs Hc Hpre.
  assert (Hraise : exists e, read_log fs now p = Raise e).
  { rewrite (read_log_chunks _ _ _ _ Hfs), Hcs, dispatch_all_app.
    destruct (dispatch_all now pre (new_report p)) as [r1|e] eqn:H1;
      [|exists e; reflexivity].
    assert (He : execTime r1 = None).
    { rewrite (dispatch_all_execTime _ _ _ _ H1), (last_of_none _ _ Hpre).
      reflexivity. }
    simpl. rewrite (dispatch_terminal_no_execTime now c r1 Hc He).
    destruct (chunk_time now c) as [t|e]; eexists; reflexivity. }
  split; [intros r; apply dispatch_terminal_no_execTime; assumption|].
  split; [exact Hraise|].
  destruct Hraise as [e ->]. split; [discriminate | intros r; discriminate].
Qed.

Lemma C4_terminal_without_execTime_raises_witness :
  read_log (Sample.one_file "job1/process.log" Sample.orphan_log)
           Sample.feb_2024 "job1/process.log" = Raise KeyError.
Proof.
  destruct (C4_terminal_without_execTime_raises
              (Sample.one_file "job1/process.log" Sample.orphan_log)
              Sample.feb_2024 "job1/process.log" Sample.orphan_log
              [Sample.long_000] [] Sample.orphan_005)
    as (_ & _ & _ & _).
  - reflexivity.
  - reflexivity.
  - reflexivity.
  - intros c' [<-|[]]. reflexivity.
  - vm_compute. reflexivity.
Defined.

(** ** [parse_resources] *)

Lemma digit_not_space (c : ascii) :
  Str.is_digit c = true -> Str.is_space c = false.
Proof.
  unfold Str.is_digit, Str.is_space. intros H.
  apply andb_true_iff in H as [H1 H2]. apply N.leb_le in H1, H2.
  apply orb_false_iff. split; apply andb_false_iff.
  - right. apply N.leb_gt. lia.
  - right. apply N.leb_gt. lia.
Qed.

(** A token made of digits has no blank to skip. *)
Lemma lstrip_digits (tok : string) :
  Str.isdigit tok = true -> Str.lstrip tok = tok.
Proof.
  destruct tok as [|c s]; [discriminate|]. intros H. simpl in H.
  apply andb_true_iff in H as [Hc _]. cbn [Str.lstrip].
  rewrite (digit_not_space c Hc). reflexivity.
Qed.

Lemma int_raises (s : string) (e : exn) :
  Str.int s = Raise e -> e = ValueError.
Proof. unfold Str.int. destruct (_ <? _)%nat; congruence. Qed.

Lemma int_Ok (s : string) (n : Z) :
  Str.int s = Ok n -> n = Str.int_value s.
Proof. unfold Str.int. destruct (_ <? _)%nat; congruence. Qed.

Lemma int_short (tok : string) :
  Str.isdigit tok = true ->
  (String.length tok <=? Str.max_str_digits)%nat = true ->
  Str.int tok = Ok (Str.int_value tok).
Proof.
  intros Hd Hl. unfold Str.int. rewrite (lstrip_digits tok Hd).
  apply Nat.leb_le in Hl.
  destruct (Nat.ltb_spec Str.max_str_digits (String.length tok)); [lia|reflexivity].
Qed.

Lemma ints_raises (toks : list string) (e : exn) :
  ints toks = Raise e -> e = ValueError.
Proof.
  induction toks as [|tok toks IH]; simpl; [discriminate|].
  destruct (Str.int tok) as [n|e'] eqn:Hn; simpl.
  - destruct (ints toks) as [ns|e'']; simpl; [discriminate|].
    intros [= <-]. apply IH. reflexivity.
  - intros [= <-]. apply (int_raises tok e' Hn).
Qed.

Lemma ints_Ok (toks : list string) (ns : list Z) :
  ints toks = Ok ns -> ns = Str.int_value <$> toks.
Proof.
  revert ns. induction toks as [|tok toks IH]; intros ns H; simpl in H.
  - injection H as <-. reflexivity.
  - inv_bind H. inv_bind H. injection H as <-.
    rewrite (int_Ok tok a Ha), (IH a0 Ha0). reflexivity.
Qed.

Lemma ints_short (toks : list string) :
  (forall tok, In tok toks -> Str.isdigit tok = true) ->
  forallb (fun tok => (String.length tok <=? Str.max_str_digits)%nat) toks = true ->
  ints toks = Ok (Str.int_value <$> toks).
Proof.
  induction toks as [|tok toks IH]; intros Hd Hs; [reflexivity|].
  simpl in Hs. apply andb_true_iff in Hs as [Hs1 Hs2].
  cbn [ints]. rewrite (int_short tok (Hd tok (or_introl eq_refl)) Hs1).
  cbn [mbind result_bind].
  rewrite IH; [reflexivity | intros t Ht; apply Hd; right; exact Ht | exact Hs2].
Qed.

Lemma numbers_of_short (line : string) :
  short_numbers line = true ->
  numbers_of line
    = Ok (Str.int_value <$> List.filter Str.isdigit (Str.split_ws line)).
Proof.
  intros H. unfold numbers_of. apply ints_short; [|exact H].
  intros tok Hin. apply List.filter_In in Hin. tauto.
Qed.

Lemma find_none_filter (toks : list string) :
  List.find Str.isdigit toks = None -> List.filter Str.isdigit toks = [].
Proof.
  induction toks as [|tok toks IH]; simpl; [reflexivity|].
  destruct (Str.isdigit tok); [discriminate | exact IH].
Qed.

(** [numbers[0]] is the value of the first numeric token of a line
    whose numeric tokens can all be converted; without a numeric token
    the index is out of range. *)
Lemma first_number_short (line : string) :
  short_numbers line = true ->
  first_number line =
    match first_numeric line with
    | Some tok => Ok (Str.int_value tok)
    | None => Raise IndexError
    end.
Proof.
  intros H. unfold first_number. rewrite (numbers_of_short line H).
  cbn [mbind result_bind]. unfold first_numeric.
  induction (Str.split_ws line) as [|tok toks IH]; simpl; [reflexivity|].
  destruct (Str.isdigit tok); [reflexivity | exact IH].
Qed.

Lemma first_number_none (line : string) :
  first_numeric line = None -> first_number line = Raise IndexError.
Proof.
  intros H. unfold first_number, numbers_of.
  rewrite (find_none_filter _ H). reflexivity.
Qed.

Lemma first_number_raises (line : string) (e : exn) :
  first_number line = Raise e -> e = IndexError \/ e = ValueError.
Proof.
  unfold first_number. destruct (numbers_of line) as [ns|e'] eqn:Hn; simpl.
  - unfold getitem. destruct (ns !! 0%nat); [discriminate|].
    intros [= <-]. left. reflexivity.
  - intros [= <-]. right. apply (ints_raises _ _ Hn).
Qed.

(** The exceptions the loop body can raise. *)
Lemma resources_line_raises (u : gmap string Z) (line : string) (e : exn) :
  resources_line u line = Raise e -> e = IndexError \/ e = ValueError.
Proof.
  unfold resources_line.
  destruct (Str.contains "Disk" line), (Str.contains "Memory" line);
    destruct (first_number line) as [n|e'] eqn:Hn; simpl; try discriminate;
    intros [= <-]; apply (first_number_raises line e' Hn).
Qed.

Lemma resources_line_raises_short (u : gmap string Z) (line : string) (e : exn) :
  (resource_line line = true -> short_numbers line = true) ->
  resources_line u line = Raise e -> e = IndexError.
Proof.
  unfold resources_line, resource_line. intros Hs.
  destruct (Str.contains "Disk" line), (Str.contains "Memory" line); simpl in *;
    try discriminate;
    rewrite (first_number_short line (Hs eq_refl));
    destruct (first_numeric line); simpl; congruence.
Qed.

Lemma resources_line_no_number (u : gmap string Z) (line : string) :
  resource_line line = true -> first_numeric line = None ->
  resources_line u line = Raise IndexError.
Proof.
  unfold resource_line, resources_line. intros Hr Hn.
  rewrite (first_number_none line Hn).
  destruct (Str.contains "Disk" line), (Str.contains "Memory" line);
    simpl in *; congruence.
Qed.

Lemma resources_line_ok (u : gmap string Z) (line : string) :
  (resource_line line = true ->
   is_Some (first_numeric line) /\ short_numbers line = true) ->
  exists u', resources_line u line = Ok u' /\
    u' !! "diskUsage" = (if Str.contains "Disk" line
                         then Str.int_value <$> first_numeric line
                         else u !! "diskUsage") /\
    u' !! "memUsage" = (if Str.contains "Memory" line
                        then Str.int_value <$> first_numeric line
                        else u !! "memUsage") /\
    (forall k, k <> "diskUsage" -> k <> "memUsage" -> u' !! k = u !! k).
Proof.
  unfold resource_line, resources_line. intros H.
  destruct (Str.contains "Disk" line), (Str.contains "Memory" line); simpl in *.
  - destruct H as [[tok Ht] Hs]; [reflexivity|].
    rewrite (first_number_short line Hs), Ht. simpl.
    eexists. split; [reflexivity|]. split; [|split].
    + rewrite lookup_insert_ne by discriminate. apply lookup_insert_eq.
    + apply lookup_insert_eq.
    + intros k Hd Hm. rewrite !lookup_insert_ne by congruence. reflexivity.
  - destruct H as [[tok Ht] Hs]; [reflexivity|].
    rewrite (first_number_short line Hs), Ht. simpl.
    eexists. split; [reflexivity|]. split; [|split].
    + apply lookup_insert_eq.
    + apply lookup_insert_ne. discriminate.
    + intros k Hd Hm. rewrite !lookup_insert_ne by congruence. reflexivity.
  - destruct H as [[tok Ht] Hs]; [reflexivity|].
    rewrite (first_number_short line Hs), Ht. simpl.
    eexists. split; [reflexivity|]. split; [|split].
    + apply lookup_insert_ne. discriminate.
    + apply lookup_insert_eq.
    + intros k Hd Hm. rewrite !lookup_insert_ne by congruence. reflexivity.
  - eexists. split; [reflexivity|]. repeat split.
Qed.

Lemma resources_loop_ok (lines : list string) :
  (forall l, In l lines -> resource_line l = true ->
     is_Some (first_numeric l) /\ short_numbers l = true) ->
  forall u, exists u', resources_loop u lines = Ok u' /\
    u' !! "diskUsage" = match last_of (Str.contains "Disk") lines with
                        | Some l => Str.int_value <$> first_numeric l
                        | None => u !! "diskUsage"
                        end /\
    u' !! "memUsage" = match last_of (Str.contains "Memory") lines with
                       | Some l => Str.int_value <$> first_numeric l
                       | None => u !! "memUsage"
                       end /\
    (forall k, k <> "diskUsage" -> k <> "memUsage" -> u' !! k = u !! k).
Proof.
  induction lines as [|l lines IH]; intros H u.
  - exists u. repeat split.
  - destruct (resources_line_ok u l) as (u1 & H1 & Hd1 & Hm1 & Hk1).
    { apply H. left. reflexivity. }
    destruct (IH (fun l' Hl' => H l' (or_intror Hl')) u1)
      as (u' & H' & Hd & Hm & Hk).
    exists u'. simpl. rewrite H1. simpl. split; [exact H'|].
    rewrite !last_of_cons, Hd, Hm. split; [|split].
    + destruct (last_of (Str.contains "Disk") lines); [reflexivity|].
      rewrite Hd1. destruct (Str.contains "Disk" l); reflexivity.
    + destruct (last_of (Str.contains "Memory") lines); [reflexivity|].
      rewrite Hm1. destruct (Str.contains "Memory" l); reflexivity.
    + intros k Hkd Hkm. rewrite Hk, Hk1 by assumption. reflexivity.
Qed.

(** A keyword line without a numeric token stops the loop, if an
    earlier line has not stopped it already. *)
Lemma resources_loop_no_number (lines : list string) (line : string) :
  In line lines -> resource_line line = true -> first_numeric line = None ->
  forall u, exists e, resources_loop u lines = Raise e.
Proof.
  intros Hin Hr Hn. induction lines as [|l lines IH]; intros u; [destruct Hin|].
  simpl. destruct (resources_line u l) as [u'|e] eqn:Hl; simpl.
  - destruct Hin as [->|Hin]; [|apply IH; exact Hin].
    rewrite resources_line_no_number in Hl by assumption. discriminate.
  - exists e. reflexivity.
Qed.

Lemma resources_loop_raises_short (lines : list string) :
  (forall l, In l lines -> resource_line l = true -> short_numbers l = true) ->
  forall u e, resources_loop u lines = Raise e -> e = IndexError.
Proof.
  induction lines as [|l lines IH]; intros Hs u e H; simpl in H; [discriminate|].
  destruct (resources_line u l) as [u'|e'] eqn:Hl; simpl in H.
  - apply (IH (fun l' Hl' => Hs l' (or_intror Hl')) u' e H).
  - injection H as <-.
    apply (resources_line_raises_short u l e' (Hs l (or_introl eq_refl)) Hl).
Qed.

Lemma first_numeric_none_iff (line : string) :
  List.filter Str.isdigit (Str.split_ws line) = [] -> first_numeric line = None.
Proof.
  intros Hnum. unfold first_numeric.
  destruct (List.find Str.isdigit (Str.split_ws line)) as [tok|] eqn:Hf;
    [|reflexivity].
  apply List.find_some in Hf. apply List.filter_In in Hf.
  rewrite Hnum in Hf. destruct Hf.
Qed.

(** C10 as stated fails: the second line below contains [Memory] and
    has no numeric token, yet the failure of [parse_resources] is not the
    out-of-range index: the first line holds a numeric token of 4301
    digits, and [int] raises [ValueError] before the second line is
    reached. *)
Lemma C10_long_number_counterexample :
  Str.split Str.nl Sample.long_then_none_chunk
    = [ "Disk " ++ repeat_char "1" 4301; "Memory n/a" ] /\
  Str.contains "Memory" "Memory n/a" = true /\
  List.filter Str.isdigit (Str.split_ws "Memory n/a") = [] /\
  parse_resources Sample.long_then_none_chunk = Raise ValueError.
Proof.
  split; [vm_compute; reflexivity|].
  split; [reflexivity|].
  split; [reflexivity|].
  vm_compute. reflexivity.
Qed.

(** C10, amended.  A chunk with a line that contains [Disk] or
    [Memory] and has no whitespace-delimited token made of digits makes
    [parse_resources] raise: it returns no mapping, not even one without
    the key.  That line itself raises [IndexError], and so does the call
    unless a line with a keyword holds a numeric token of more digits
    than [int] converts (4300), which raises [ValueError] first. *)
Theorem C10_keyword_line_without_number_raises (chunk line : string) :
  In line (Str.split Str.nl chunk) ->
  Str.contains "Disk" line = true \/ Str.contains "Memory" line = true ->
  List.filter Str.isdigit (Str.split_ws line) = [] ->
  (forall u, resources_line u line = Raise IndexError) /\
  (exists e, parse_resources chunk = Raise e) /\
  ((forall l, In l (Str.split Str.nl chunk) -> resource_line l = true ->
      short_numbers l = true) ->
   parse_resources chunk = Raise IndexError).
Proof.
  intros Hin Hkey Hnum.
  assert (Hr : resource_line line = true).
  { unfold resource_line. apply orb_true_iff. exact Hkey. }
  pose proof (first_numeric_none_iff line Hnum) as Hn.
  split; [intros u; apply resources_line_no_number; assumption|].
  unfold parse_resources.
  destruct (resources_loop_no_number _ line Hin Hr Hn ∅) as [e He].
  split; [exists e; exact He|].
  intros Hs. rewrite He. f_equal.
  apply (resources_loop_raises_short _ Hs ∅ e He).
Qed.

Lemma C10_keyword_line_without_number_raises_witness :
  (forall u, resources_line u " Disk (KB)            :   n/a" = Raise IndexError) /\
  (exists e, parse_resources Sample.no_number_chunk = Raise e) /\
  ((forall l, In l (Str.split Str.nl Sample.no_number_chunk) ->
      resource_line l = true -> short_numbers l = true) ->
   parse_resources Sample.no_number_chunk = Raise IndexError).
Proof.
  apply (C10_keyword_line_without_number_raises Sample.no_number_chunk
           " Disk (KB)            :   n/a").
  - simpl. right. left. reflexivity.
  - left. reflexivity.
  - reflexivity.
Defined.

Lemma resources_loop_no_keyword (lines : list string) (u : gmap string Z) :
  (forall l, In l lines -> resource_line l = false) ->
  resources_loop u lines = Ok u.
Proof.
  induction lines as [|l lines IH]; intros H; [reflexivity|].
  simpl. unfold resources_line.
  pose proof (H l (or_introl eq_refl)) as Hl. unfold resource_line in Hl.
  apply orb_false_iff in Hl as [-> ->]. simpl.
  apply IH. intros l' Hl'. apply H. right. exact Hl'.
Qed.

(** [first_numeric] names the leftmost token that is a digit sequence. *)
Lemma first_numeric_spec (line tok : string) :
  first_numeric line = Some tok <->
  exists before after : list string,
    Str.split_ws line = (before ++ tok :: after)%list /\
    Str.isdigit tok = true /\
    forall t, In t before -> Str.isdigit t = false.
Proof.
  unfold first_numeric. induction (Str.split_ws line) as [|t ts IH]; simpl.
  - split; [discriminate|]. intros (before & after & H & _).
    destruct before; discriminate.
  - destruct (Str.isdigit t) eqn:Ht.
    + split.
      * intros [= <-]. exists [], ts. repeat split; [exact Ht|]. intros t' [].
      * intros (before & after & H & Hd & Hb). destruct before as [|b before].
        -- simpl in H. congruence.
        -- simpl in H. injection H as <- _.
           rewrite (Hb t (or_introl eq_refl)) in Ht. discriminate.
    + rewrite IH. split.
      * intros (before & after & -> & Hd & Hb). exists (t :: before), after.
        repeat split; [exact Hd|]. intros t' [<-|Hin]; auto.
      * intros (before & after & H & Hd & Hb). destruct before as [|b before].
        -- simpl in H. injection H as -> _. congruence.
        -- simpl in H. injection H as <- ->. exists before, after.
           repeat split; [exact Hd|]. intros t' Hin. apply Hb. right. exact Hin.
Qed.

(** C5 as stated fails: on the line below the first numeric token is
    [5], yet [diskUsage] is not set to 5: the list comprehension converts
    every numeric token of the line, the second one has 4301 digits, and
    [int] raises [ValueError]. *)
Lemma C5_long_number_counterexample :
  Str.split Str.nl Sample.long_number_chunk = [Sample.long_number_chunk] /\
  Str.contains "Disk" Sample.long_number_chunk = true /\
  first_numeric Sample.long_number_chunk = Some "5" /\
  parse_resources Sample.long_number_chunk = Raise ValueError.
Proof.
  split; [vm_compute; reflexivity|].
  split; [vm_compute; reflexivity|].
  split; [vm_compute; reflexivity|].
  vm_compute. reflexivity.
Qed.

(** C5, amended.  When every line that contains [Disk] or [Memory] has
    a numeric token and none of more digits than [int] converts (4300),
    [parse_resources] reads, on every such line, the first
    whitespace-delimited token made of digits and stores its value under
    [diskUsage] (resp. [memUsage]); the mapping it returns holds, for each
    key, the value read on the last such line and has no other key.  On
    the chunk of the specification it returns [diskUsage = 1024] and
    [memUsage = 512], and on a chunk without such lines it returns the
    empty mapping.  ([first_numeric_spec] says what the first such token
    is.) *)
Theorem C5_first_numeric_token_per_keyword (chunk : string) :
  ((forall line, In line (Str.split Str.nl chunk) ->
      resource_line line = true ->
      is_Some (first_numeric line) /\ short_numbers line = true) ->
   exists u, parse_resources chunk = Ok u /\
     u !! "diskUsage" = table_value "Disk" chunk /\
     u !! "memUsage" = table_value "Memory" chunk /\
     (forall k, k <> "diskUsage" -> k <> "memUsage" -> u !! k = None)) /\
  ((forall line, In line (Str.split Str.nl chunk) -> resource_line line = false) ->
   parse_resources chunk = Ok ∅) /\
  parse_resources Sample.table_chunk
    = Ok (<["memUsage" := 512]> (<["diskUsage" := 1024]> ∅)) /\
  parse_resources Sample.table_lines
    = Ok (<["memUsage" := 512]> (<["diskUsage" := 1024]> ∅)).
Proof.
  split; [|split; [|split]].
  - intros H. unfold parse_resources, table_value.
    destruct (resources_loop_ok _ H ∅) as (u & Hu & Hd & Hm & Hk).
    exists u. split; [exact Hu|]. split; [|split].
    + rewrite Hd. destruct (last_of _ _); reflexivity.
    + rewrite Hm. destruct (last_of _ _); reflexivity.
    + intros k Hkd Hkm. rewrite Hk by assumption. apply lookup_empty.
  - intros H. apply resources_loop_no_keyword. exact H.
  - vm_compute. reflexivity.
  - vm_compute. reflexivity.
Qed.

Lemma C5_first_numeric_token_per_keyword_witness :
  (exists u, parse_resources Sample.table_chunk = Ok u /\
     u !! "diskUsage" = Some 1024 /\
     u !! "memUsage" = Some 512 /\
     (forall k, k <> "diskUsage" -> k <> "memUsage" -> u !! k = None)) /\
  parse_resources Sample.no_table_chunk = Ok ∅.
Proof.
  split.
  - apply (proj1 (C5_first_numeric_token_per_keyword Sample.table_chunk)).
    simpl. intros line [<-|[<-|[<-|[<-|[<-|[]]]]]]; vm_compute;
      first [discriminate | intros _; split; [eexists; reflexivity | reflexivity]].
  - apply (proj1 (proj2 (C5_first_numeric_token_per_keyword Sample.no_table_chunk))).
    simpl. intros line [<-|[<-|[<-|[]]]]; reflexivity.
Defined.

(** ** Calendar arithmetic *)

(** The expression of lines 88 and 93 is the difference of the two
    times in seconds: the normalisation of [timedelta] cancels out. *)
Lemma total_seconds_sub (a b : datetime) :
  total_seconds (DT.sub a b) = timestamp a - timestamp b.
Proof.
  unfold total_seconds, DT.sub, DT.delta, timestamp. simpl.
  pose proof (Z.div_mod (DT.day_seconds a - DT.day_seconds b) 86400).
  lia.
Qed.

Lemma days_before_year_succ (y : Z) :
  DT.days_before_year (y + 1) =
    DT.days_before_year y + 365 + (if DT.is_leap y then 1 else 0).
Proof.
  unfold DT.days_before_year, DT.is_leap.
  replace (y + 1 - 1) with y by lia.
  destruct (y mod 4 =? 0) eqn:H4; destruct (y mod 100 =? 0) eqn:H100;
    destruct (y mod 400 =? 0) eqn:H400; simpl;
    rewrite ?Z.eqb_eq, ?Z.eqb_neq in *;
    Z.div_mod_to_equations; lia.
Qed.

Lemma days_before_year_mono (y y' : Z) :
  y <= y' -> DT.days_before_year y <= DT.days_before_year y'.
Proof.
  unfold DT.days_before_year. intros H. Z.div_mod_to_equations. lia.
Qed.

Lemma month_cases (m : Z) :
  1 <= m <= 12 ->
  m = 1 \/ m = 2 \/ m = 3 \/ m = 4 \/ m = 5 \/ m = 6 \/
  m = 7 \/ m = 8 \/ m = 9 \/ m = 10 \/ m = 11 \/ m = 12.
Proof. lia. Qed.

Ltac case_month m H :=
  let C := fresh "C" in
  pose proof (month_cases m H) as C;
  repeat (destruct C as [C|C]; [subst m|]); [..|subst m].

(** The day of the year of a date that passed the constructor. *)
Lemma day_of_year_range (y m d : Z) :
  1 <= m <= 12 -> 1 <= d <= DT.days_in_month y m ->
  1 <= DT.days_before_month y m + d <= 365 + (if DT.is_leap y then 1 else 0).
Proof.
  intros Hm Hd. case_month m Hm;
    unfold DT.days_before_month, DT.days_in_month in *; simpl in *;
    destruct (DT.is_leap y); simpl in *; lia.
Qed.

Lemma day_of_year_mono (y m d m' d' : Z) :
  1 <= m <= 12 -> 1 <= d <= DT.days_in_month y m ->
  1 <= m' <= 12 -> 1 <= d' <= DT.days_in_month y m' ->
  m < m' ->
  DT.days_before_month y m + d < DT.days_before_month y m' + d'.
Proof.
  intros Hm Hd Hm' Hd' Hlt.
  case_month m Hm; case_month m' Hm'; try lia;
    unfold DT.days_before_month, DT.days_in_month in *; simpl in *;
    destruct (DT.is_leap y); simpl in *; lia.
Qed.

Lemma valid_ranges (t : datetime) :
  DT.valid t = true ->
  1 <= year t <= 9999 /\ 1 <= month t <= 12 /\
  1 <= day t <= DT.days_in_month (year t) (month t) /\
  0 <= hour t <= 23 /\ 0 <= minute t <= 59 /\ 0 <= second t <= 59.
Proof.
  unfold DT.valid. rewrite !andb_true_iff, !Z.leb_le. tauto.
Qed.

Lemma toordinal_year_lt (a b : datetime) :
  DT.valid a = true -> DT.valid b = true ->
  year a < year b -> DT.toordinal a < DT.toordinal b.
Proof.
  intros Ha Hb Hlt.
  apply valid_ranges in Ha as (_ & Hma & Hda & _).
  apply valid_ranges in Hb as (_ & Hmb & Hdb & _).
  pose proof (day_of_year_range _ _ _ Hma Hda).
  pose proof (day_of_year_range _ _ _ Hmb Hdb).
  pose proof (days_before_year_succ (year a)).
  pose proof (days_before_year_mono (year a + 1) (year b) ltac:(lia)).
  unfold DT.toordinal. lia.
Qed.

Lemma toordinal_month_lt (a b : datetime) :
  DT.valid a = true -> DT.valid b = true ->
  year a = year b -> month a < month b ->
  DT.toordinal a < DT.toordinal b.
Proof.
  intros Ha Hb Hy Hlt.
  apply valid_ranges in Ha as (_ & Hma & Hda & _).
  apply valid_ranges in Hb as (_ & Hmb & Hdb & _).
  rewrite <- Hy in Hdb.
  pose proof (day_of_year_mono _ _ _ _ _ Hma Hda Hmb Hdb Hlt).
  unfold DT.toordinal. rewrite <- Hy. lia.
Qed.

(** Earlier fields, earlier instant. *)
Lemma before_timestamp (a b : datetime) :
  DT.valid a = true -> DT.valid b = true ->
  before a b -> timestamp a < timestamp b.
Proof.
  intros Ha Hb H.
  pose proof (valid_ranges _ Ha) as (_ & _ & _ & Hha & Hmia & Hsa).
  pose proof (valid_ranges _ Hb) as (_ & _ & _ & Hhb & Hmib & Hsb).
  unfold timestamp, DT.day_seconds.
  destruct H as [H|(Hy & H)].
  { pose proof (toordinal_year_lt a b Ha Hb H). lia. }
  destruct H as [H|(Hm & H)].
  { pose proof (toordinal_month_lt a b Ha Hb Hy H). lia. }
  assert (Hord : DT.toordinal a - day a = DT.toordinal b - day b).
  { unfold DT.toordinal. rewrite Hy, Hm. lia. }
  lia.
Qed.

Lemma before_or_equal (a b : datetime) :
  before a b \/ a = b \/ before b a.
Proof.
  destruct a as [ya ma da ha mia sa], b as [yb mb db hb mib sb].
  unfold before. simpl.
  destruct (Z.lt_trichotomy ya yb) as [?|[->|?]]; [tauto| |tauto].
  destruct (Z.lt_trichotomy ma mb) as [?|[->|?]]; [tauto| |tauto].
  destruct (Z.lt_trichotomy da db) as [?|[->|?]]; [tauto| |tauto].
  destruct (Z.lt_trichotomy ha hb) as [?|[->|?]]; [tauto| |tauto].
  destruct (Z.lt_trichotomy mia mib) as [?|[->|?]]; [tauto| |tauto].
  destruct (Z.lt_trichotomy sa sb) as [?|[->|?]]; tauto.
Qed.

Lemma leb_before (a b : datetime) :
  DT.leb a b = true <-> before a b \/ a = b.
Proof.
  destruct a as [ya ma da ha mia sa], b as [yb mb db hb mib sb].
  unfold DT.leb, DT.fields, before. simpl.
  repeat first [rewrite orb_true_iff | rewrite andb_true_iff].
  rewrite !Z.ltb_lt, !Z.eqb_eq.
  split.
  - intros H.
    repeat (destruct H as [H|(? & H)]; [tauto|]). subst.
    right. reflexivity.
  - intros [H|[= -> -> -> -> -> ->]]; [|tauto].
    repeat (destruct H as [H|(? & H)]; [tauto|]). tauto.
Qed.

(** The comparison of two valid times agrees with the order of the
    instants they denote. *)
Lemma leb_timestamp (a b : datetime) :
  DT.valid a = true -> DT.valid b = true ->
  (DT.leb a b = true <-> timestamp a <= timestamp b).
Proof.
  intros Ha Hb. rewrite leb_before. split.
  - intros [H| ->]; [|lia]. pose proof (before_timestamp a b Ha Hb H). lia.
  - intros H. destruct (before_or_equal a b) as [?|[?|Hba]]; [tauto|tauto|].
    pose proof (before_timestamp b a Hb Ha Hba). lia.
Qed.

Lemma chunk_time_valid (now : datetime) (c : string) (t : datetime) :
  chunk_time now c = Ok t -> DT.valid t = true.
Proof.
  unfold chunk_time. intros H. inv_bind H. eauto using parse_time_valid.
Qed.

(** ** The report at the end of the file *)

(** A field that only chunks satisfying [p] can change is the same
    after a run over chunks that do not satisfy [p]. *)
Lemma dispatch_all_unchanged {X : Type} (now : datetime)
    (field : JobReport -> option X) (p : string -> bool)
    (f : string -> JobReport -> option X) :
  (forall c r r', dispatch now c r = Ok r' ->
     field r' = if p c then f c r else field r) ->
  forall cs r r',
    (forall c, In c cs -> p c = false) ->
    dispatch_all now cs r = Ok r' -> field r' = field r.
Proof.
  intros Hstep. induction cs as [|c cs IH]; intros r r' Hp H; simpl in H.
  - injection H as <-. reflexivity.
  - inv_bind H. rewrite (IH a r'); [|intros c' Hc'; apply Hp; right; exact Hc'|exact H].
    rewrite (Hstep _ _ _ Ha), (Hp c (or_introl eq_refl)). reflexivity.
Qed.

Lemma dispatch_all_snoc (now : datetime) (cs : list string) (c : string)
    (r r' : JobReport) :
  dispatch_all now (cs ++ [c]) r = Ok r' ->
  exists r1, dispatch_all now cs r = Ok r1 /\ dispatch now c r1 = Ok r'.
Proof.
  rewrite dispatch_all_app. intros H. inv_bind H. exists a. split; [exact Ha|].
  simpl in H. destruct (dispatch now c a); [exact H | discriminate].
Qed.

Lemma read_log_Some (fs : string -> option string) (now : datetime)
    (p text : string) (r : JobReport) :
  fs p = Some text -> read_log fs now p = Ok (Some r) ->
  dispatch_all now (chunks_of text) (new_report p) = Ok r.
Proof.
  intros Hfs H. rewrite (read_log_chunks _ _ _ _ Hfs) in H.
  destruct (dispatch_all _ _ _); simpl in H; congruence.
Qed.

(** The time of the last 001 chunk of a run that started without
    [execTime]. *)
Lemma execTime_from_last_001 (now : datetime) (cs : list string)
    (r0 r : JobReport) (e : datetime) :
  execTime r0 = None ->
  dispatch_all now cs r0 = Ok r -> execTime r = Some e ->
  exists c1, last_of (is_code "001") cs = Some c1 /\ chunk_time now c1 = Ok e.
Proof.
  intros H0 H He. rewrite (dispatch_all_execTime _ _ _ _ H), H0 in He.
  destruct (last_of (is_code "001") cs) as [c1|]; [|discriminate].
  exists c1. split; [reflexivity|].
  destruct (chunk_time now c1); simpl in He; congruence.
Qed.

(** C3 as stated fails.  In the log below the events are written in
    chronological order (30 November 23:50 and 23:59, 1 December 00:01);
    read on 5 January 2024 the December time is put in 2023 and the
    November time in 2024, and [runTime] is negative. *)
Lemma C3_chronological_log_counterexample :
  chunks_of Sample.autumn_log =
    [Sample.autumn_000; Sample.autumn_001; Sample.autumn_005] /\
  written_time <$> chunks_of Sample.autumn_log =
    [ Ok (mk_datetime 2023 11 30 23 50 0);
      Ok (mk_datetime 2023 11 30 23 59 0);
      Ok (mk_datetime 2023 12 1 0 1 0) ] /\
  DT.leb (mk_datetime 2023 11 30 23 50 0) (mk_datetime 2023 11 30 23 59 0) = true /\
  DT.leb (mk_datetime 2023 11 30 23 59 0) (mk_datetime 2023 12 1 0 1 0) = true /\
  match read_log (Sample.one_file "job1/process.log" Sample.autumn_log)
                 Sample.jan_2024 "job1/process.log" with
  | Ok (Some r) =>
      execTime r = Some (mk_datetime 2024 11 30 23 59 0) /\
      termTime r = Some (mk_datetime 2023 12 1 0 1 0) /\
      runTime r = Some (-31622280)
  | _ => False
  end.
Proof.
  split; [vm_compute; reflexivity|].
  split; [vm_compute; reflexivity|].
  split; [vm_compute; reflexivity|].
  split; [vm_compute; reflexivity|].
  vm_compute. repeat split.
Qed.

(** C3, amended.  When [read_log] returns a report and the last chunk
    dispatched starts with 004 or 005, [runTime] is the terminal time of
    that chunk ([evictTime] for 004, [termTime] for 005) minus [execTime],
    the time of the last 001 chunk before it, both as [parse_time]
    resolved them, in whole seconds (the times have no fraction of a
    second, so nothing is rounded).  It is non-negative exactly when the
    resolved [execTime] is not later than the resolved terminal time. *)
Theorem C3_runTime_is_resolved_difference (fs : string -> option string)
    (now : datetime) (p text : string) (r : JobReport)
    (pre : list string) (c : string) :
  fs p = Some text ->
  read_log fs now p = Ok (Some r) ->
  chunks_of text = (pre ++ [c])%list ->
  is_terminal c = true ->
  exists t e c1,
    chunk_time now c = Ok t /\
    (if is_code "004" c then evictTime r else termTime r) = Some t /\
    last_of (is_code "001") pre = Some c1 /\
    chunk_time now c1 = Ok e /\
    execTime r = Some e /\
    runTime r = Some (timestamp t - timestamp e) /\
    (0 <= timestamp t - timestamp e <-> DT.leb e t = true).
Proof.
  intros Hfs Hread Hcs Hc.
  apply (read_log_Some _ _ _ _ _ Hfs) in Hread. rewrite Hcs in Hread.
  apply dispatch_all_snoc in Hread as (r1 & Hpre & Hlast).
  assert (Hshape : exists t e,
            chunk_time now c = Ok t /\ execTime r1 = Some e /\
            runTime r = Some (total_seconds (DT.sub t e)) /\
            execTime r = Some e /\
            (if is_code "004" c then evictTime r else termTime r) = Some t).
  { unfold is_terminal, is_code in *. apply orb_true_iff in Hc as [Hc|Hc].
    - rewrite dispatch_004 in Hlast by assumption.
      inv_bind Hlast. inv_bind Hlast. inv_bind Hlast. injection Hlast as <-.
      unfold get_execTime in Ha0. destruct (execTime r1) as [e|] eqn:He; [|discriminate].
      injection Ha0 as ->. exists a, a0. rewrite Hc. simpl. auto.
    - rewrite dispatch_005 in Hlast by assumption.
      inv_bind Hlast. inv_bind Hlast. inv_bind Hlast. injection Hlast as <-.
      unfold get_execTime in Ha0. destruct (execTime r1) as [e|] eqn:He; [|discriminate].
      injection Ha0 as ->. exists a, a0.
      rewrite (code_exclusive "005" "004" c eq_refl ltac:(discriminate) Hc).
      simpl. auto. }
  destruct Hshape as (t & e & Ht & He1 & Hrun & He & Hterm).
  destruct (execTime_from_last_001 now pre (new_report p) r1 e eq_refl Hpre He1)
    as (c1 & Hc1 & He').
  exists t, e, c1. rewrite total_seconds_sub in Hrun.
  repeat (split; [assumption|]).
  rewrite (leb_timestamp e t (chunk_time_valid _ _ _ He') (chunk_time_valid _ _ _ Ht)).
  lia.
Qed.

Lemma C3_runTime_is_resolved_difference_witness :
  exists t e c1,
    chunk_time Sample.feb_2024 Sample.long_005 = Ok t /\
    termTime Sample.long_report = Some t /\
    last_of (is_code "001")
      [Sample.long_000; Sample.long_001a; Sample.long_006; Sample.long_004;
       Sample.long_001b] = Some c1 /\
    chunk_time Sample.feb_2024 c1 = Ok e /\
    execTime Sample.long_report = Some e /\
    runTime Sample.long_report = Some (timestamp t - timestamp e) /\
    (0 <= timestamp t - timestamp e <-> DT.leb e t = true).
Proof.
  apply (C3_runTime_is_resolved_difference
           (Sample.one_file "job1/process.log" Sample.long_log)
           Sample.feb_2024 "job1/process.log" Sample.long_log
           Sample.long_report
           [Sample.long_000; Sample.long_001a; Sample.long_006; Sample.long_004;
            Sample.long_001b]
           Sample.long_005).
  - reflexivity.
  - vm_compute. reflexivity.
  - vm_compute. reflexivity.
  - reflexivity.
Defined.

(** C8.  In the report [read_log] returns, each time field holds the
    time of the last chunk of its code in file order, [usage] holds the
    table of the last chunk that starts with 004 or 005, and [runTime] is
    the one computed at that chunk from the [execTime] stored then (the
    last 001 chunk before it): a later chunk overwrites what an earlier
    one of the same kind wrote, and a 005 chunk after a 004 chunk
    replaces its [runTime] and [usage]. *)
Theorem C8_last_write_wins (fs : string -> option string) (now : datetime)
    (p text : string) (r : JobReport) :
  fs p = Some text ->
  read_log fs now p = Ok (Some r) ->
  subTime r = (c ← last_of (is_code "000") (chunks_of text);
               value (chunk_time now c)) /\
  execTime r = (c ← last_of (is_code "001") (chunks_of text);
                value (chunk_time now c)) /\
  evictTime r = (c ← last_of (is_code "004") (chunks_of text);
                 value (chunk_time now c)) /\
  termTime r = (c ← last_of (is_code "005") (chunks_of text);
                value (chunk_time now c)) /\
  abortedTime r = (c ← last_of (is_code "009") (chunks_of text);
                   value (chunk_time now c)) /\
  usage r = (c ← last_of is_terminal (chunks_of text);
             value (parse_resources c)) /\
  (last_of is_terminal (chunks_of text) = None -> runTime r = None) /\
  (forall pre c post,
     chunks_of text = (pre ++ c :: post)%list ->
     is_terminal c = true ->
     (forall c', In c' post -> is_terminal c' = false) ->
     runTime r = (t ← value (chunk_time now c);
                  c1 ← last_of (is_code "001") pre;
                  e ← value (chunk_time now c1);
                  Some (total_seconds (DT.sub t e)))).
Proof.
  intros Hfs Hread. apply (read_log_Some _ _ _ _ _ Hfs) in Hread.
  assert (Hfield : forall (X : Type) (field : JobReport -> option X)
            (q : string -> bool) (f : string -> option X),
            field (new_report p) = None ->
            (forall c r0 r1, dispatch now c r0 = Ok r1 ->
               field r1 = if q c then f c else field r0) ->
            field r = (c ← last_of q (chunks_of text); f c)).
  { intros X field q f H0 Hstep.
    rewrite (dispatch_all_field now field q f Hstep _ _ _ Hread), H0.
    destruct (last_of q (chunks_of text)); reflexivity. }
  split; [apply Hfield; [reflexivity | intros c r0 r1 H; apply (dispatch_fields _ _ _ _ H)]|].
  split; [apply Hfield; [reflexivity | intros c r0 r1 H; apply (dispatch_fields _ _ _ _ H)]|].
  split; [apply Hfield; [reflexivity | intros c r0 r1 H; apply (dispatch_fields _ _ _ _ H)]|].
  split; [apply Hfield; [reflexivity | intros c r0 r1 H; apply (dispatch_fields _ _ _ _ H)]|].
  split; [apply Hfield; [reflexivity | intros c r0 r1 H; apply (dispatch_fields _ _ _ _ H)]|].
  split; [apply Hfield; [reflexivity | intros c r0 r1 H; apply (dispatch_fields _ _ _ _ H)]|].
  assert (Hrun : forall c r0 r1, dispatch now c r0 = Ok r1 ->
            runTime r1 = if is_terminal c
                         then (fun c r0 => t ← value (chunk_time now c);
                                 e ← execTime r0;
                                 Some (total_seconds (DT.sub t e))) c r0
                         else runTime r0).
  { intros c r0 r1 H. apply (dispatch_fields _ _ _ _ H). }
  split.
  - intros Hnone.
    assert (Hall : forall c, In c (chunks_of text) -> is_terminal c = false);
      [|rewrite (dispatch_all_unchanged now runTime is_terminal _ Hrun _ _ _ Hall Hread);
        reflexivity].
    intros c Hc. destruct (is_terminal c) eqn:Ht; [|reflexivity].
    assert (Hin : In c (List.filter is_terminal (chunks_of text))).
    { apply List.filter_In. auto. }
    unfold last_of in Hnone. apply last_None in Hnone. rewrite Hnone in Hin.
    destruct Hin.
  - intros pre c post Hcs Hc Hpost. rewrite Hcs, dispatch_all_app in Hread.
    inv_bind Hread. simpl in Hread. inv_bind Hread.
    rewrite (dispatch_all_unchanged now runTime is_terminal _ Hrun _ _ _ Hpost Hread).
    rewrite (Hrun _ _ _ Ha0), Hc.
    rewrite (dispatch_all_execTime _ _ _ _ Ha). simpl.
    destruct (chunk_time now c); simpl; [|reflexivity].
    destruct (last_of (is_code "001") pre); reflexivity.
Qed.

Lemma C8_last_write_wins_witness :
  evictTime Sample.long_report = value (chunk_time Sample.feb_2024 Sample.long_004) /\
  execTime Sample.long_report = value (chunk_time Sample.feb_2024 Sample.long_001b) /\
  usage Sample.long_report = value (parse_resources Sample.long_005) /\
  runTime Sample.long_report =
    (t ← value (chunk_time Sample.feb_2024 Sample.long_005);
     e ← value (chunk_time Sample.feb_2024 Sample.long_001b);
     Some (total_seconds (DT.sub t e))).
Proof.
  destruct (C8_last_write_wins
              (Sample.one_file "job1/process.log" Sample.long_log)
              Sample.feb_2024 "job1/process.log" Sample.long_log
              Sample.long_report)
    as (_ & He & Hv & _ & _ & Hu & _ & Hr).
  - reflexivity.
  - vm_compute. reflexivity.
  - split; [exact Hv|]. split; [exact He|]. split; [exact Hu|].
    apply (Hr [Sample.long_000; Sample.long_001a; Sample.long_006;
               Sample.long_004; Sample.long_001b]
              Sample.long_005 []).
    + vm_compute. reflexivity.
    + reflexivity.
    + intros c' [].
Defined.

(** The year rule at work on a date written with its year: December
    read in January is dated to the year before the clock's. *)
Lemma parse_time_year_witness :
  parse_time Sample.jan_2024 Sample.iso_line
    = Ok (mk_datetime 2023 12 29 15 16 50) /\
  year (mk_datetime 2023 12 29 15 16 50) =
    (if (month (mk_datetime 2023 12 29 15 16 50) =? 12)
        && (month Sample.jan_2024 =? 1)
     then year Sample.jan_2024 - 1 else year Sample.jan_2024).
Proof.
  split; [vm_compute; reflexivity|].
  apply (parse_time_year Sample.jan_2024 Sample.iso_line).
  vm_compute. reflexivity.
Defined.

(** * Further properties *)

(** ** [parse_time]: errors and fields *)

Lemma getitem_short {A : Type} (l : list A) (i : nat) :
  (length l <= i)%nat -> getitem l i = Raise IndexError.
Proof.
  intros H. unfold getitem. rewrite (lookup_ge_None_2 l i) by lia. reflexivity.
Qed.

Lemma getitem_long {A : Type} (l : list A) (i : nat) :
  (i < length l)%nat -> exists a, getitem l i = Ok a.
Proof.
  intros H. unfold getitem.
  destruct (lookup_lt_is_Some_2 l i H) as [a ->]. exists a. reflexivity.
Qed.

Lemma make_raises (y m d H M S : Z) (e : exn) :
  DT.make y m d H M S = Raise e -> e = ValueError.
Proof. unfold DT.make. destruct (DT.valid _); congruence. Qed.

Lemma strptime_raises (s : string) (e : exn) :
  strptime s = Raise e -> e = ValueError.
Proof.
  unfold strptime. destruct (Re.rmatch _ _) as [[rest g]|]; [|congruence].
  destruct rest; [|congruence]. intros H.
  repeat match type of H with
  | (Str.int ?x ≫= _) = _ =>
      let E := fresh "E" in
      destruct (Str.int x) eqn:E; cbn [mbind result_bind] in H;
      [|injection H as <-; exact (int_raises _ _ E)]
  end.
  apply make_raises in H. exact H.
Qed.

(** X2.  [parse_time] raises [IndexError] exactly when the line has fewer
    than four pieces between single spaces; every other failure is a
    [ValueError], and [KeyError] is never raised. *)
Theorem parse_time_error_kinds (now : datetime) (line : string) :
  (parse_time now line = Raise IndexError <->
     (length (Str.split " " line) < 4)%nat) /\
  parse_time now line <> Raise KeyError.
Proof.
  unfold parse_time.
  destruct (Nat.lt_ge_cases (length (Str.split " " line)) 3) as [H3|H3].
  { rewrite (getitem_short _ 2) by lia. rewrite bind_Raise. split; [|discriminate].
    split; [intros _; lia | reflexivity]. }
  destruct (getitem_long (Str.split " " line) 2 ltac:(lia)) as [t2 ->].
  rewrite bind_Ok.
  destruct (Nat.lt_ge_cases (length (Str.split " " line)) 4) as [H4|H4].
  { rewrite (getitem_short _ 3) by lia. rewrite bind_Raise. split; [|discriminate].
    split; [intros _; lia | reflexivity]. }
  destruct (getitem_long (Str.split " " line) 3 ltac:(lia)) as [t3 ->].
  rewrite bind_Ok.
  assert (Hv : forall e, (strptime (t2 ++ " " ++ t3) ≫= fun date_object =>
                  if (month date_object =? 12) && (month now =? 1)
                  then DT.replace_year date_object (year now - 1)
                  else DT.replace_year date_object (year now)) = Raise e ->
               e = ValueError).
  { intros e H. destruct (strptime _) as [w|e'] eqn:Hs; simpl in H.
    - destruct (_ && _); apply make_raises in H; exact H.
    - injection H as <-. apply strptime_raises in Hs. exact Hs. }
  split; [split|].
  - intros H. apply Hv in H. discriminate.
  - intros H. lia.
  - intros H. apply Hv in H. discriminate.
Qed.

(** X3.  A timestamp returned by [parse_time] is a real calendar date
    and time of day, and it has the month, day, hour, minute and second
    written in the third and fourth pieces of the line: only the year is
    replaced. *)
Theorem parse_time_keeps_written_fields (now : datetime) (line : string)
    (t : datetime) :
  parse_time now line = Ok t ->
  (exists t2 t3 w,
     getitem (Str.split " " line) 2 = Ok t2 /\
     getitem (Str.split " " line) 3 = Ok t3 /\
     strptime (t2 ++ " " ++ t3) = Ok w /\
     month t = month w /\ day t = day w /\
     hour t = hour w /\ minute t = minute w /\ second t = second w) /\
  1 <= year t <= 9999 /\ 1 <= month t <= 12 /\
  1 <= day t <= DT.days_in_month (year t) (month t) /\
  0 <= hour t <= 23 /\ 0 <= minute t <= 59 /\ 0 <= second t <= 59.
Proof.
  intros H. split; [|exact (valid_ranges t (parse_time_valid now line t H))].
  unfold parse_time in H. inv_bind H. inv_bind H. inv_bind H.
  exists a, a0, a1. repeat (split; [assumption|]).
  destruct (_ && _); apply make_year in H; subst t; simpl; repeat split.
Qed.

Lemma parse_time_keeps_written_fields_witness :
  (exists t2 t3 w,
     getitem (Str.split " " Sample.iso_line) 2 = Ok t2 /\
     getitem (Str.split " " Sample.iso_line) 3 = Ok t3 /\
     strptime (t2 ++ " " ++ t3) = Ok w /\
     12 = month w /\ 29 = day w /\ 15 = hour w /\ 16 = minute w /\ 50 = second w) /\
  1 <= 2023 <= 9999 /\ 1 <= 12 <= 12 /\
  1 <= 29 <= DT.days_in_month 2023 12 /\
  0 <= 15 <= 23 /\ 0 <= 16 <= 59 /\ 0 <= 50 <= 59.
Proof.
  apply (parse_time_keeps_written_fields Sample.jan_2024 Sample.iso_line
           (mk_datetime 2023 12 29 15 16 50)).
  vm_compute. reflexivity.
Defined.

(** X4.  A 29 February written in the log is rejected when the year
    given to the event is not a leap year: the date is read, but
    [replace(year=...)] raises [ValueError]. *)
Theorem parse_time_leap_day_raises (now : datetime) (line t2 t3 : string)
    (w : datetime) :
  getitem (Str.split " " line) 2 = Ok t2 ->
  getitem (Str.split " " line) 3 = Ok t3 ->
  strptime (t2 ++ " " ++ t3) = Ok w ->
  month w = 2 -> day w = 29 ->
  DT.is_leap (year now) = false ->
  parse_time now line = Raise ValueError.
Proof.
  intros H2 H3 Hw Hm Hd Hleap. unfold parse_time.
  rewrite H2, H3. cbn [mbind result_bind]. rewrite Hw. cbn [mbind result_bind].
  rewrite Hm. simpl (2 =? 12). simpl andb.
  unfold DT.replace_year, DT.make, DT.valid. simpl.
  rewrite Hm, Hd. unfold DT.days_in_month. simpl. rewrite Hleap. simpl.
  rewrite !andb_false_r. reflexivity.
Qed.

Lemma parse_time_leap_day_raises_witness :
  parse_time Sample.dec_2023 Sample2.leap_line = Raise ValueError.
Proof.
  apply (parse_time_leap_day_raises Sample.dec_2023 Sample2.leap_line
           "2024-02-29" "10:00:00" (mk_datetime 2024 2 29 10 0 0)).
  - reflexivity.
  - reflexivity.
  - vm_compute. reflexivity.
  - reflexivity.
  - reflexivity.
  - reflexivity.
Defined.

(** ** [parse_resources]: values and irrelevant lines *)

Lemma digit_val_range (c : ascii) :
  Str.is_digit c = true -> 0 <= Str.digit_val c <= 9.
Proof.
  unfold Str.is_digit, Str.digit_val. intros H.
  apply andb_true_iff in H as [H1 H2]. apply N.leb_le in H1, H2. lia.
Qed.

Lemma int_acc_nonneg (s : string) :
  forall acc, Str.all_digits s = true -> 0 <= acc -> 0 <= Str.int_acc acc s.
Proof.
  induction s as [|c s IH]; intros acc Hd Hacc; simpl in *; [exact Hacc|].
  apply andb_true_iff in Hd as [Hc Hs]. apply IH; [exact Hs|].
  pose proof (digit_val_range c Hc). lia.
Qed.

(** The value of a token made of digits is not negative. *)
Lemma int_digits_nonneg (tok : string) :
  Str.isdigit tok = true -> 0 <= Str.int_value tok.
Proof.
  intros H. unfold Str.int_value. rewrite (lstrip_digits tok H).
  destruct tok as [|c s]; [discriminate|].
  apply int_acc_nonneg; [exact H | lia].
Qed.

Lemma numbers_first_nonneg (line : string) (n : Z) :
  first_number line = Ok n -> 0 <= n.
Proof.
  unfold first_number, numbers_of. intros H. inv_bind H.
  apply ints_Ok in Ha. subst a.
  destruct (List.filter Str.isdigit (Str.split_ws line)) as [|tok toks] eqn:Hf;
    [discriminate H|].
  simpl in H. injection H as <-. apply int_digits_nonneg.
  assert (Hin : In tok (List.filter Str.isdigit (Str.split_ws line))).
  { rewrite Hf. left. reflexivity. }
  apply List.filter_In in Hin. tauto.
Qed.

Lemma usage_ok_insert (u : gmap string Z) (k : string) (n : Z) :
  usage_ok u -> k = "diskUsage" \/ k = "memUsage" -> 0 <= n ->
  usage_ok (<[k := n]> u).
Proof.
  intros Hu Hk Hn k' n' H. destruct (decide (k = k')) as [<-|Hne].
  - rewrite lookup_insert_eq in H. injection H as <-. auto.
  - rewrite lookup_insert_ne in H by exact Hne. apply Hu. exact H.
Qed.

Lemma resources_line_usage_ok (u u' : gmap string Z) (line : string) :
  usage_ok u -> resources_line u line = Ok u' -> usage_ok u'.
Proof.
  unfold resources_line. intros Hu H. inv_bind H.
  assert (H1 : usage_ok a).
  { destruct (Str.contains "Disk" line);
      [|injection Ha as <-; exact Hu].
    inv_bind Ha. injection Ha as <-.
    apply usage_ok_insert; eauto using numbers_first_nonneg. }
  destruct (Str.contains "Memory" line);
    [|injection H as <-; exact H1].
  inv_bind H. injection H as <-.
  apply usage_ok_insert; eauto using numbers_first_nonneg.
Qed.

Lemma resources_loop_usage_ok (lines : list string) :
  forall u u', usage_ok u -> resources_loop u lines = Ok u' -> usage_ok u'.
Proof.
  induction lines as [|l lines IH]; intros u u' Hu H; simpl in H.
  - injection H as <-. exact Hu.
  - inv_bind H. eauto using resources_line_usage_ok.
Qed.

Lemma parse_resources_usage_ok (chunk : string) (u : gmap string Z) :
  parse_resources chunk = Ok u -> usage_ok u.
Proof.
  apply resources_loop_usage_ok. intros k n H. rewrite lookup_empty in H.
  discriminate.
Qed.

(** X5.  Whatever the chunk, a mapping returned by [parse_resources]
    has no key besides [diskUsage] and [memUsage], and no negative
    value. *)
Theorem parse_resources_keys_and_signs (chunk : string) (u : gmap string Z)
    (k : string) (n : Z) :
  parse_resources chunk = Ok u ->
  u !! k = Some n ->
  (k = "diskUsage" \/ k = "memUsage") /\ 0 <= n.
Proof. intros H. apply (parse_resources_usage_ok chunk u H). Qed.

Lemma parse_resources_keys_and_signs_witness :
  ("memUsage" = "diskUsage" \/ "memUsage" = "memUsage") /\ 0 <= 512.
Proof.
  apply (parse_resources_keys_and_signs Sample.table_chunk
           (<["memUsage" := 512]> (<["diskUsage" := 1024]> ∅)) "memUsage" 512).
  - vm_compute. reflexivity.
  - reflexivity.
Defined.

Lemma resources_line_skip (u : gmap string Z) (line : string) :
  resource_line line = false -> resources_line u line = Ok u.
Proof.
  unfold resource_line, resources_line. intros H.
  apply orb_false_iff in H as [-> ->]. reflexivity.
Qed.

Lemma resources_loop_filter (lines : list string) :
  forall u, resources_loop u lines =
            resources_loop u (List.filter resource_line lines).
Proof.
  induction lines as [|l lines IH]; intros u; simpl; [reflexivity|].
  destruct (resource_line l) eqn:Hl; simpl.
  - destruct (resources_line u l); simpl; [apply IH | reflexivity].
  - rewrite (resources_line_skip u l Hl). simpl. apply IH.
Qed.

(** X6.  [parse_resources] looks at the lines that contain [Disk] or
    [Memory] and at nothing else: two chunks with the same such lines, in
    the same order, give the same result, error included. *)
Theorem parse_resources_reads_keyword_lines_only (chunk chunk' : string) :
  List.filter resource_line (Str.split Str.nl chunk)
    = List.filter resource_line (Str.split Str.nl chunk') ->
  parse_resources chunk = parse_resources chunk'.
Proof.
  intros H. unfold parse_resources.
  rewrite (resources_loop_filter (Str.split Str.nl chunk)),
          (resources_loop_filter (Str.split Str.nl chunk')), H.
  reflexivity.
Qed.

Lemma parse_resources_reads_keyword_lines_only_witness :
  parse_resources Sample.table_chunk = parse_resources Sample.table_lines.
Proof.
  apply (parse_resources_reads_keyword_lines_only
           Sample.table_chunk Sample.table_lines).
  reflexivity.
Defined.

(** ** [read_log]: how the file is cut into chunks *)

Lemma append_cons (x : ascii) (a b : string) :
  String x a ++ b = String x (a ++ b).
Proof. reflexivity. Qed.

Lemma append_assoc (a b c : string) : (a ++ b) ++ c = a ++ (b ++ c).
Proof.
  induction a as [|x a IH]; [reflexivity|].
  rewrite !append_cons, IH. reflexivity.
Qed.

Lemma append_nil_r (a : string) : a ++ "" = a.
Proof.
  induction a as [|x a IH]; [reflexivity|].
  rewrite append_cons, IH. reflexivity.
Qed.

Lemma join_cons (x : string) (l : list string) : join (x :: l) = x ++ join l.
Proof. reflexivity. Qed.

(** The lines of a file, put end to end, are the text of the file. *)
Lemma lines_from_join (s : string) :
  forall cur, join (Str.lines_from cur s) = cur ++ s.
Proof.
  induction s as [|c s IH]; intros cur.
  - destruct cur; [reflexivity|].
    change (Str.lines_from (String a cur) "") with [String a cur].
    rewrite join_cons. reflexivity.
  - cbn [Str.lines_from]. destruct (Ascii.eqb c Str.nl).
    + rewrite join_cons, IH, append_assoc. reflexivity.
    + rewrite IH, append_assoc. reflexivity.
Qed.

Lemma chunks_weave (lines : list string) :
  forall cur,
    cur ++ join lines =
      weave (chunks_from cur lines) (separators lines) ++ trailing_from cur lines /\
    length (chunks_from cur lines) = length (separators lines).
Proof.
  unfold separators.
  induction lines as [|l lines IH]; intros cur.
  - simpl. rewrite append_nil_r. split; reflexivity.
  - rewrite join_cons. cbn [chunks_from trailing_from List.filter].
    destruct (Str.startswith "..." l) eqn:Hl.
    + destruct (IH "") as [IH1 IH2]. cbn [weave length].
      rewrite !append_assoc, <- IH1, IH2. split; reflexivity.
    + destruct (IH (cur ++ l)) as [IH1 IH2]. rewrite <- IH1, IH2.
      rewrite append_assoc. split; reflexivity.
Qed.

(** X11.  Cutting a file into chunks loses nothing and invents nothing:
    the dispatched chunks, each followed by its separator line, and then
    the text left after the last separator, put end to end, are the text
    of the file; there is one chunk per separator line. *)
Theorem chunks_round_trip (text : string) :
  text = weave (chunks_of text) (separators (Str.file_lines text))
         ++ trailing_from "" (Str.file_lines text) /\
  length (chunks_of text) = length (separators (Str.file_lines text)) /\
  (forall l, In l (separators (Str.file_lines text)) ->
     Str.startswith "..." l = true).
Proof.
  unfold chunks_of.
  destruct (chunks_weave (Str.file_lines text) "") as [H1 H2].
  split; [|split].
  - rewrite <- H1. unfold Str.file_lines. rewrite lines_from_join. reflexivity.
  - exact H2.
  - intros l Hl. unfold separators in Hl. apply List.filter_In in Hl. tauto.
Qed.

Lemma lines_from_app (s : string) :
  forall cur t,
    s <> "" -> lines_terminated s = true ->
    Str.lines_from cur (s ++ t) = (Str.lines_from cur s ++ Str.lines_from "" t)%list.
Proof.
  induction s as [|c s IH]; intros cur t Hne Ht; [congruence|].
  rewrite append_cons. cbn [Str.lines_from].
  destruct s as [|c' s'].
  - simpl in Ht. rewrite Ht. reflexivity.
  - assert (Ht' : lines_terminated (String c' s') = true) by exact Ht.
    destruct (Ascii.eqb c Str.nl).
    + rewrite (IH "" t) by (congruence || exact Ht'). reflexivity.
    + rewrite (IH (cur ++ String c "") t) by (congruence || exact Ht').
      reflexivity.
Qed.

Lemma file_lines_app (text tail : string) :
  lines_terminated text = true ->
  Str.file_lines (text ++ tail) = (Str.file_lines text ++ Str.file_lines tail)%list.
Proof.
  intros Ht. destruct text as [|c s]; [reflexivity|].
  apply lines_from_app; [discriminate | exact Ht].
Qed.

Lemma chunks_from_no_separator (lines : list string) :
  forall cur,
    (forall l, In l lines -> Str.startswith "..." l = false) ->
    chunks_from cur lines = [].
Proof.
  induction lines as [|l lines IH]; intros cur H; [reflexivity|].
  simpl. rewrite (H l (or_introl eq_refl)). apply IH.
  intros l' Hl'. apply H. right. exact Hl'.
Qed.

Lemma chunks_from_app (lines1 lines2 : list string) :
  forall cur,
    (forall l, In l lines2 -> Str.startswith "..." l = false) ->
    chunks_from cur (lines1 ++ lines2) = chunks_from cur lines1.
Proof.
  induction lines1 as [|l lines1 IH]; intros cur H.
  - apply chunks_from_no_separator. exact H.
  - simpl. destruct (Str.startswith "..." l); rewrite IH by exact H; reflexivity.
Qed.

(** X7.  What follows the last separator line of a file is never
    dispatched: text added after a file whose lines are all terminated
    changes nothing to the result of [read_log], error included, as long
    as none of the added lines starts with three dots. *)
Theorem read_log_ignores_unterminated_chunk (fs fs' : string -> option string)
    (now : datetime) (p text tail : string) :
  fs p = Some text ->
  fs' p = Some (text ++ tail) ->
  lines_terminated text = true ->
  (forall l, In l (Str.file_lines tail) -> Str.startswith "..." l = false) ->
  read_log fs' now p = read_log fs now p.
Proof.
  intros Hfs Hfs' Ht Htail.
  rewrite (read_log_chunks fs now p text Hfs),
          (read_log_chunks fs' now p (text ++ tail) Hfs').
  unfold chunks_of. rewrite (file_lines_app text tail Ht).
  rewrite (chunks_from_app _ _ "" Htail). reflexivity.
Qed.

Lemma read_log_ignores_unterminated_chunk_witness :
  read_log (Sample.one_file "job1/process.log"
              (Sample.long_log ++ "005 (7.000.000) no date here
Disk (KB)   :   n/a"))
           Sample.feb_2024 "job1/process.log"
  = read_log (Sample.one_file "job1/process.log" Sample.long_log)
             Sample.feb_2024 "job1/process.log".
Proof.
  apply (read_log_ignores_unterminated_chunk
           (Sample.one_file "job1/process.log" Sample.long_log)
           (Sample.one_file "job1/process.log"
              (Sample.long_log ++ "005 (7.000.000) no date here
Disk (KB)   :   n/a"))
           Sample.feb_2024 "job1/process.log" Sample.long_log
           "005 (7.000.000) no date here
Disk (KB)   :   n/a").
  - reflexivity.
  - reflexivity.
  - reflexivity.
  - simpl. intros l [<-|[<-|[]]]; reflexivity.
Defined.

(** ** [read_log]: the shape of the report *)

Lemma is_Some_None_iff {A : Type} (P : Prop) :
  (is_Some (@None A) <-> P) <-> ~ P.
Proof.
  split.
  - intros H HP. apply H in HP. destruct HP as [x Hx]. discriminate.
  - intros H. split; [intros [x Hx]; discriminate | tauto].
Qed.

Ltac some_facts :=
  repeat match goal with
  | H : is_Some None |- _ => destruct H as [? H]; discriminate H
  | |- is_Some (Some _) => eexists; reflexivity
  end.

(** Closes the goal on the times of a report after one field was set
    to the valid time [Hv]; [H4] is the fact for the report before. *)
Ltac times_ok Hv H4 :=
  let t' := fresh "t'" in
  let Hin := fresh "Hin" in
  let E := fresh "E" in
  intros t' Hin;
  repeat (destruct Hin as [E|Hin];
          [first [injection E as <-; exact Hv | apply H4; tauto]|]);
  destruct Hin.

Lemma dispatch_report_ok (now : datetime) (c : string) (r r' : JobReport) :
  report_ok r -> dispatch now c r = Ok r' ->
  report_ok r' /\ path r' = path r.
Proof.
  unfold report_ok, report_times. simpl.
  intros (H1 & H2 & H3 & H4 & H5) H.
  destruct (Str.startswith "000" c) eqn:C0.
  { rewrite dispatch_000 in H by assumption. inv_bind H. injection H as <-.
    pose proof (chunk_time_valid _ _ _ Ha) as Hv. simpl.
    split; [|reflexivity]. repeat (split; [assumption|]).
    split; [|assumption]. times_ok Hv H4. }
  destruct (Str.startswith "001" c) eqn:C1.
  { rewrite dispatch_001 in H by assumption. inv_bind H. injection H as <-.
    pose proof (chunk_time_valid _ _ _ Ha) as Hv. simpl.
    split; [|reflexivity]. repeat (split; [assumption|]).
    split; [intros _; some_facts|]. split; [|assumption]. times_ok Hv H4. }
  destruct (Str.startswith "004" c) eqn:C4.
  { rewrite dispatch_004 in H by assumption.
    inv_bind H. inv_bind H. inv_bind H. injection H as <-.
    pose proof (chunk_time_valid _ _ _ Ha) as Hv.
    unfold get_execTime in Ha0. destruct (execTime r) as [e|] eqn:He; [|discriminate].
    simpl. rewrite He. split; [|reflexivity].
    split; [split; intros _; some_facts|].
    split; [split; [intros _; left; some_facts | intros _; some_facts]|].
    split; [intros _; some_facts|]. split.
    - times_ok Hv H4.
    - intros u [= <-]. eapply parse_resources_usage_ok. exact Ha1. }
  destruct (Str.startswith "005" c) eqn:C5.
  { rewrite dispatch_005 in H by assumption.
    inv_bind H. inv_bind H. inv_bind H. injection H as <-.
    pose proof (chunk_time_valid _ _ _ Ha) as Hv.
    unfold get_execTime in Ha0. destruct (execTime r) as [e|] eqn:He; [|discriminate].
    simpl. rewrite He. split; [|reflexivity].
    split; [split; intros _; some_facts|].
    split; [split; [intros _; right; some_facts | intros _; some_facts]|].
    split; [intros _; some_facts|]. split.
    - times_ok Hv H4.
    - intros u [= <-]. eapply parse_resources_usage_ok. exact Ha1. }
  destruct (Str.startswith "009" c) eqn:C9.
  { rewrite dispatch_009 in H by assumption. inv_bind H. injection H as <-.
    pose proof (chunk_time_valid _ _ _ Ha) as Hv. simpl.
    split; [|reflexivity]. repeat (split; [assumption|]).
    split; [|assumption]. times_ok Hv H4. }
  rewrite dispatch_other in H by assumption. injection H as <-.
  split; [|reflexivity]. auto.
Qed.

Lemma dispatch_all_report_ok (now : datetime) (cs : list string) :
  forall r r', report_ok r -> dispatch_all now cs r = Ok r' ->
    report_ok r' /\ path r' = path r.
Proof.
  induction cs as [|c cs IH]; intros r r' Hok H; simpl in H.
  - injection H as <-. auto.
  - inv_bind H. destruct (dispatch_report_ok now c r a Hok Ha) as [Hok1 Hp1].
    destruct (IH a r' Hok1 H) as [Hok' Hp']. split; [exact Hok' | congruence].
Qed.

Lemma new_report_ok (p : string) : report_ok (new_report p).
Proof.
  unfold report_ok, report_times. simpl.
  split; [split; intros H; some_facts|].
  split; [split; [intros H; some_facts | intros [H|H]; some_facts]|].
  split; [intros H; some_facts|].
  split; [|discriminate].
  intros t H. repeat (destruct H as [H|H]; [discriminate H|]). destruct H.
Qed.

(** X8.  Every report [read_log] returns carries the path it was asked
    to read, and its fields hang together: [runTime] is present exactly
    when [usage] is, and exactly when [evictTime] or [termTime] is; it
    then comes with [execTime]; every time is a calendar date and time of
    day; [usage] has no key besides [diskUsage] and [memUsage] and no
    negative value. *)
Theorem read_log_report_invariant (fs : string -> option string)
    (now : datetime) (p text : string) (r : JobReport) :
  fs p = Some text ->
  read_log fs now p = Ok (Some r) ->
  path r = p /\ report_ok r.
Proof.
  intros Hfs H. apply (read_log_Some _ _ _ _ _ Hfs) in H.
  destruct (dispatch_all_report_ok now _ _ _ (new_report_ok p) H) as [Hok Hp].
  split; [exact Hp | exact Hok].
Qed.

Lemma read_log_report_invariant_witness :
  path Sample.long_report = "job1/process.log" /\ report_ok Sample.long_report.
Proof.
  apply (read_log_report_invariant
           (Sample.one_file "job1/process.log" Sample.long_log)
           Sample.feb_2024 "job1/process.log" Sample.long_log).
  - reflexivity.
  - vm_compute. reflexivity.
Defined.

(** ** [read_log]: chunks that do not count *)

Lemma timed_false (c : string) :
  timed c = false ->
  Str.startswith "000" c = false /\ Str.startswith "001" c = false /\
  Str.startswith "004" c = false /\ Str.startswith "005" c = false /\
  Str.startswith "009" c = false.
Proof.
  unfold timed, is_code. rewrite !orb_false_iff. tauto.
Qed.

Lemma dispatch_untimed (now : datetime) (c : string) (r : JobReport) :
  timed c = false -> dispatch now c r = Ok r.
Proof.
  intros H. apply timed_false in H as (H0 & H1 & H4 & H5 & H9).
  apply dispatch_other; assumption.
Qed.

Lemma dispatch_all_filter_timed (now : datetime) (cs : list string) :
  forall r, dispatch_all now cs r = dispatch_all now (List.filter timed cs) r.
Proof.
  induction cs as [|c cs IH]; intros r; simpl; [reflexivity|].
  destruct (timed c) eqn:Hc; simpl.
  - destruct (dispatch now c r); simpl; [apply IH | reflexivity].
  - rewrite (dispatch_untimed now c r Hc). simpl. apply IH.
Qed.

(** X10.  Chunks that start with 006 or with no known code play no part:
    two files whose other chunks are the same, in the same order, give the
    same result, report or error. *)
Theorem read_log_ignores_other_chunks (fs : string -> option string)
    (now : datetime) (p text text' : string) :
  fs p = Some text ->
  List.filter timed (chunks_of text) = List.filter timed (chunks_of text') ->
  read_log fs now p
    = read_log (fun q => if String.eqb q p then Some text' else fs q) now p.
Proof.
  intros Hfs Heq.
  rewrite (read_log_chunks fs now p text Hfs).
  rewrite (read_log_chunks _ now p text'); [|rewrite String.eqb_refl; reflexivity].
  rewrite (dispatch_all_filter_timed now (chunks_of text)),
          (dispatch_all_filter_timed now (chunks_of text')), Heq.
  reflexivity.
Qed.

Lemma read_log_ignores_other_chunks_witness :
  read_log (Sample.one_file "job1/process.log" Sample.long_log)
           Sample.feb_2024 "job1/process.log"
  = read_log (fun q => if String.eqb q "job1/process.log"
                       then Some Sample2.long_log_variant
                       else Sample.one_file "job1/process.log" Sample.long_log q)
             Sample.feb_2024 "job1/process.log".
Proof.
  apply (read_log_ignores_other_chunks
           (Sample.one_file "job1/process.log" Sample.long_log)
           Sample.feb_2024 "job1/process.log"
           Sample.long_log Sample2.long_log_variant).
  - reflexivity.
  - vm_compute. reflexivity.
Defined.

(** ** [read_log]: when a report is returned *)

(** One dispatch succeeds exactly when the time of a timed chunk can be
    read and, for a terminal chunk, [execTime] is there and the resource
    table can be read. *)
Lemma dispatch_ok_iff (now : datetime) (c : string) (r : JobReport) :
  (exists r', dispatch now c r = Ok r') <->
  (timed c = true -> exists t, chunk_time now c = Ok t) /\
  (is_terminal c = true ->
     is_Some (execTime r) /\ exists u, parse_resources c = Ok u).
Proof.
  unfold timed, is_terminal, is_code.
  destruct (Str.startswith "000" c) eqn:C0.
  { rewrite dispatch_000 by assumption. other_codes C0. simpl. split.
    - intros [r' H]. inv_bind H. split; [eauto | discriminate].
    - intros [[t Ht] _]; [reflexivity|]. rewrite Ht. simpl. eauto. }
  destruct (Str.startswith "001" c) eqn:C1.
  { rewrite dispatch_001 by assumption. other_codes C1. simpl. split.
    - intros [r' H]. inv_bind H. split; [eauto | discriminate].
    - intros [[t Ht] _]; [reflexivity|]. rewrite Ht. simpl. eauto. }
  destruct (Str.startswith "004" c) eqn:C4.
  { rewrite dispatch_004 by assumption. other_codes C4. simpl. split.
    - intros [r' H]. inv_bind H. inv_bind H. inv_bind H.
      unfold get_execTime in Ha0. destruct (execTime r); [|discriminate].
      split; [eauto|]. intros _. split; [some_facts | eauto].
    - intros [[t Ht] [[e He] [u Hu]]]; [reflexivity..|].
      rewrite Ht. unfold get_execTime. rewrite He, Hu. simpl. eauto. }
  destruct (Str.startswith "005" c) eqn:C5.
  { rewrite dispatch_005 by assumption. other_codes C5. simpl. split.
    - intros [r' H]. inv_bind H. inv_bind H. inv_bind H.
      unfold get_execTime in Ha0. destruct (execTime r); [|discriminate].
      split; [eauto|]. intros _. split; [some_facts | eauto].
    - intros [[t Ht] [[e He] [u Hu]]]; [reflexivity..|].
      rewrite Ht. unfold get_execTime. rewrite He, Hu. simpl. eauto. }
  destruct (Str.startswith "009" c) eqn:C9.
  { rewrite dispatch_009 by assumption. simpl. split.
    - intros [r' H]. inv_bind H. split; [eauto | discriminate].
    - intros [[t Ht] _]; [reflexivity|]. rewrite Ht. simpl. eauto. }
  rewrite dispatch_other by assumption. simpl.
  split; [intros _; split; discriminate | eauto].
Qed.

Lemma dispatch_execTime_Some (now : datetime) (c : string) (r r' : JobReport) :
  dispatch now c r = Ok r' ->
  (is_Some (execTime r') <-> is_Some (execTime r) \/ is_code "001" c = true).
Proof.
  intros H. pose proof (dispatch_fields now c r r' H) as (_ & _ & He & _).
  rewrite He. destruct (is_code "001" c) eqn:C1.
  - assert (Ht : exists t, chunk_time now c = Ok t).
    { apply (proj1 (dispatch_ok_iff now c r)); [eauto|].
      unfold timed. rewrite C1. rewrite !orb_true_r. reflexivity. }
    destruct Ht as [t ->]. simpl. split; [auto | intros _; some_facts].
  - split; [auto | intros [?|?]; [assumption | discriminate]].
Qed.

Lemma dispatch_all_ok_iff (now : datetime) (cs : list string) :
  forall r,
    (exists r', dispatch_all now cs r = Ok r') <->
    (forall c, In c cs -> timed c = true -> exists t, chunk_time now c = Ok t) /\
    (forall c, In c cs -> is_terminal c = true ->
       exists u, parse_resources c = Ok u) /\
    (forall pre c post, cs = (pre ++ c :: post)%list -> is_terminal c = true ->
       is_Some (execTime r) \/
       exists c1, In c1 pre /\ is_code "001" c1 = true).
Proof.
  induction cs as [|c cs IH]; intros r.
  - simpl. split; [|eauto]. intros _.
    split; [intros c []|]. split; [intros c []|].
    intros pre c post H. destruct pre; discriminate.
  - simpl. split.
    + intros [r' H]. inv_bind H.
      destruct (proj1 (dispatch_ok_iff now c r) (ex_intro _ a Ha)) as [Ht Hterm].
      destruct (proj1 (IH a) (ex_intro _ r' H)) as (I1 & I2 & I3).
      split; [intros c' [<-|Hin]; auto|].
      split; [intros c' [<-|Hin] Hc'; [apply Hterm; exact Hc' | auto]|].
      intros pre c' post Heq Hc'. destruct pre as [|x pre]; simpl in Heq.
      * injection Heq as -> ->. left. apply Hterm. exact Hc'.
      * injection Heq as -> ->.
        destruct (I3 pre c' post eq_refl Hc') as [He|(c1 & Hin & H1)].
        -- apply (dispatch_execTime_Some now _ _ _ Ha) in He as [He|He];
             [left; exact He | right; exists x; split; [left; reflexivity | exact He]].
        -- right. exists c1. split; [right; exact Hin | exact H1].
    + intros (H1 & H2 & H3).
      assert (Hd : exists r1, dispatch now c r = Ok r1).
      { apply dispatch_ok_iff. split; [apply H1; left; reflexivity|].
        intros Hc. split; [|apply H2; [left; reflexivity | exact Hc]].
        destruct (H3 [] c cs eq_refl Hc) as [He|(c1 & [] & _)]. exact He. }
      destruct Hd as [r1 Hd]. rewrite Hd. simpl. apply IH.
      split; [intros c' Hin; apply H1; right; exact Hin|].
      split; [intros c' Hin; apply H2; right; exact Hin|].
      intros pre c' post -> Hc'.
      destruct (H3 (c :: pre) c' post eq_refl Hc') as [He|(c1 & [<-|Hin] & Hc1)].
      * left. apply (dispatch_execTime_Some now _ _ _ Hd). left. exact He.
      * left. apply (dispatch_execTime_Some now _ _ _ Hd). right. exact Hc1.
      * right. exists c1. split; assumption.
Qed.

(** X9.  [read_log] returns a report for a file it could open exactly
    when the first line of every chunk that starts with 000, 001, 004,
    005 or 009 gives a time, the resource table of every chunk that
    starts with 004 or 005 can be read, and every such chunk comes after a
    chunk that starts with 001.  In every other case it raises. *)
Theorem read_log_returns_report_iff (fs : string -> option string)
    (now : datetime) (p text : string) :
  fs p = Some text ->
  ((exists r, read_log fs now p = Ok (Some r)) <->
   (forall c, In c (chunks_of text) -> timed c = true ->
      exists t, chunk_time now c = Ok t) /\
   (forall c, In c (chunks_of text) -> is_terminal c = true ->
      exists u, parse_resources c = Ok u) /\
   (forall pre c post, chunks_of text = (pre ++ c :: post)%list ->
      is_terminal c = true ->
      exists c1, In c1 pre /\ is_code "001" c1 = true)) /\
  ((forall r, read_log fs now p <> Ok (Some r)) ->
   exists e, read_log fs now p = Raise e).
Proof.
  intros Hfs. rewrite (read_log_chunks fs now p text Hfs). split.
  - pose proof (dispatch_all_ok_iff now (chunks_of text) (new_report p)) as Hiff.
    split.
    + intros [r H].
      destruct (dispatch_all now (chunks_of text) (new_report p)) as [r0|e] eqn:Hd;
        [|discriminate].
      destruct (proj1 Hiff (ex_intro _ r0 eq_refl)) as (H1 & H2 & H3).
      split; [exact H1|]. split; [exact H2|].
      intros pre c post Heq Hc. destruct (H3 pre c post Heq Hc) as [He|He];
        [simpl in He; some_facts | exact He].
    + intros (H1 & H2 & H3).
      destruct (proj2 Hiff) as [r Hr].
      { split; [exact H1|]. split; [exact H2|].
        intros pre c post Heq Hc. right. eauto. }
      exists r. rewrite Hr. reflexivity.
  - intros H. destruct (dispatch_all now (chunks_of text) (new_report p)) as [r|e].
    + exfalso. apply (H r). reflexivity.
    + exists e. reflexivity.
Qed.

Lemma read_log_returns_report_iff_witness :
  (forall c, In c (chunks_of Sample.long_log) -> timed c = true ->
     exists t, chunk_time Sample.feb_2024 c = Ok t) /\
  (forall c, In c (chunks_of Sample.long_log) -> is_terminal c = true ->
     exists u, parse_resources c = Ok u) /\
  (forall pre c post, chunks_of Sample.long_log = (pre ++ c :: post)%list ->
     is_terminal c = true ->
     exists c1, In c1 pre /\ is_code "001" c1 = true).
Proof.
  apply (proj1 (proj1 (read_log_returns_report_iff
                         (Sample.one_file "job1/process.log" Sample.long_log)
                         Sample.feb_2024 "job1/process.log" Sample.long_log
                         eq_refl))).
  exists Sample.long_report. vm_compute. reflexivity.
Defined.

(** ** [main] *)

Lemma rstrip_cons (c d : ascii) (s t : string) :
  Str.rstrip s = String d t -> Str.rstrip (String c s) = String c (String d t).
Proof. intros H. cbn [Str.rstrip]. rewrite H. reflexivity. Qed.

Lemma rstrip_idempotent (s : string) : Str.rstrip (Str.rstrip s) = Str.rstrip s.
Proof.
  induction s as [|c s IH]; [reflexivity|].
  destruct (Str.rstrip s) as [|d t] eqn:Hr.
  - cbn [Str.rstrip]. rewrite Hr.
    destruct (Str.is_space c) eqn:Hc; [reflexivity|].
    cbn [Str.rstrip]. rewrite Hc. reflexivity.
  - rewrite (rstrip_cons c d s t Hr). apply rstrip_cons. exact IH.
Qed.

Lemma lstrip_fixed (s : string) :
  (forall c s', s = String c s' -> Str.is_space c = false) ->
  Str.lstrip s = s.
Proof.
  destruct s as [|c s']; [reflexivity|]. intros H.
  cbn [Str.lstrip]. rewrite (H c s' eq_refl). reflexivity.
Qed.

Lemma lstrip_head (s : string) (c : ascii) (s' : string) :
  Str.lstrip s = String c s' -> Str.is_space c = false.
Proof.
  induction s as [|x s IH]; [discriminate|]. cbn [Str.lstrip].
  destruct (Str.is_space x) eqn:Hx; [exact IH|]. intros [= <- _]. exact Hx.
Qed.

Lemma rstrip_head (s : string) (c : ascii) (s' : string) :
  (forall x y, s = String x y -> Str.is_space x = false) ->
  Str.rstrip s = String c s' -> Str.is_space c = false.
Proof.
  destruct s as [|x y]; [discriminate|]. intros H. cbn [Str.rstrip].
  pose proof (H x y eq_refl) as Hx. rewrite Hx.
  destruct (Str.rstrip y); intros [= <- _]; exact Hx.
Qed.

Lemma strip_idempotent (s : string) : Str.strip (Str.strip s) = Str.strip s.
Proof.
  unfold Str.strip.
  rewrite (lstrip_fixed (Str.rstrip (Str.lstrip s))).
  - apply rstrip_idempotent.
  - intros c s' H. apply (rstrip_head _ _ _ (lstrip_head s) H).
Qed.

(** X14.  [main] reads its arguments for the mode and the pattern only:
    the program name, the arguments after the pattern and the whitespace
    around the pattern change nothing, and a missing pattern stands for
    [job*/process.log]. *)
Theorem main_reads_mode_and_pattern_only (fs : string -> option string)
    (glob : string -> list string) (now : datetime) (argv : list string)
    (prog : string) :
  main fs glob now argv
    = main fs glob now [prog; nth 1 argv ""; main_pattern argv] /\
  main_pattern [prog; nth 1 argv ""] = "job*/process.log".
Proof.
  split; [|reflexivity].
  unfold main.
  assert (Hp : main_pattern [prog; nth 1 argv ""; main_pattern argv]
               = main_pattern argv).
  { unfold main_pattern at 1. cbn [length Nat.ltb Nat.leb nth].
    unfold main_pattern. apply strip_idempotent. }
  rewrite Hp. cbn [length nth].
  destruct (length argv <=? 1)%nat eqn:Hlen; [|reflexivity].
  apply Nat.leb_le in Hlen. rewrite (nth_overflow argv "" Hlen). reflexivity.
Qed.

Lemma main_loop_app (fs : string -> option string) (now : datetime)
    (mode : string) (files1 files2 : list string) :
  main_loop fs now mode (files1 ++ files2)
    = (main_loop fs now mode files1 ++ main_loop fs now mode files2)%list.
Proof.
  induction files1 as [|f files1 IH]; [reflexivity|].
  simpl. rewrite IH, app_assoc. reflexivity.
Qed.

Lemma mode_cases (mode : string) :
  existsb (String.eqb mode) modes = true ->
  mode = "time" \/ mode = "memory" \/ mode = "disk".
Proof.
  unfold modes. simpl. rewrite !orb_true_iff, !String.eqb_eq.
  intros [H|[H|[H|H]]]; [tauto | tauto | tauto | discriminate H].
Qed.

(** A file without a chunk that starts with 004 or 005 yields a report
    without [runTime] and [usage]. *)
Lemma no_terminal_no_runTime (now : datetime) (cs : list string)
    (r0 r : JobReport) :
  (forall c, In c cs -> is_terminal c = false) ->
  dispatch_all now cs r0 = Ok r ->
  runTime r = runTime r0 /\ usage r = usage r0.
Proof.
  intros Hcs H. split.
  - apply (dispatch_all_unchanged now runTime is_terminal
             (fun c r0 => t ← value (chunk_time now c);
                          e ← execTime r0;
                          Some (total_seconds (DT.sub t e)))
             ltac:(intros c' a b Hd; apply (dispatch_fields _ _ _ _ Hd))
             cs r0 r Hcs H).
  - apply (dispatch_all_unchanged now usage is_terminal
             (fun c _ => value (parse_resources c))
             ltac:(intros c' a b Hd; apply (dispatch_fields _ _ _ _ Hd))
             cs r0 r Hcs H).
Qed.

Lemma file_output_no_terminal (fs : string -> option string) (now : datetime)
    (mode f : string) :
  existsb (String.eqb mode) modes = true ->
  (forall text, fs f = Some text ->
     forall c, In c (chunks_of text) -> is_terminal c = false) ->
  file_output fs now mode f = read_log_print fs f.
Proof.
  intros Hmode Hf. unfold file_output, try_file.
  assert (Hnone : match read_log fs now f with
                  | Ok (Some r) => runTime r = None /\ usage r = None
                  | _ => True
                  end).
  { destruct (fs f) as [text|] eqn:Hfs.
    - destruct (read_log fs now f) as [[r|]|e] eqn:Hr; [|exact I|exact I].
      apply (read_log_Some _ _ _ _ _ Hfs) in Hr.
      apply (no_terminal_no_runTime now _ _ _ (Hf text eq_refl) Hr).
    - unfold read_log. rewrite Hfs. exact I. }
  destruct (read_log fs now f) as [[r|]|e].
  - destruct Hnone as [Hrun Hus]. unfold select_field. rewrite Hrun, Hus.
    apply mode_cases in Hmode as [-> | [-> | ->]]; simpl; apply app_nil_r.
  - apply mode_cases in Hmode as [-> | [-> | ->]]; simpl; apply app_nil_r.
  - apply app_nil_r.
Qed.

(** X13.  With a valid mode, a run over logs none of which has a chunk
    that starts with 004 or 005 prints no value at all: the only lines
    are the messages of the files that could not be opened, and the
    program returns normally. *)
Theorem main_prints_no_value_without_terminal (fs : string -> option string)
    (glob : string -> list string) (now : datetime) (argv : list string) :
  (1 < length argv)%nat ->
  In (nth 1 argv "") modes ->
  (forall f text, In f (glob (main_pattern argv)) -> fs f = Some text ->
     forall c, In c (chunks_of text) -> is_terminal c = false) ->
  main fs glob now argv
    = (flat_map (read_log_print fs) (glob (main_pattern argv)), Returned).
Proof.
  intros Hlen Hmode Hfiles. unfold main.
  assert (Hm : existsb (String.eqb (nth 1 argv "")) modes = true).
  { apply existsb_exists. exists (nth 1 argv ""). split; [exact Hmode|].
    apply String.eqb_refl. }
  rewrite Hm. apply Nat.leb_gt in Hlen. rewrite Hlen. simpl. f_equal.
  induction (glob (main_pattern argv)) as [|f files IH]; [reflexivity|].
  simpl. rewrite file_output_no_terminal.
  - rewrite IH; [reflexivity|].
    intros f' text Hin. apply Hfiles. right. exact Hin.
  - exact Hm.
  - intros text Hfs. apply (Hfiles f text); [left; reflexivity | exact Hfs].
Qed.

Lemma main_prints_no_value_without_terminal_witness :
  main Sample2.disk (fun _ => ["job2/process.log"; "job4/process.log"])
       Sample.feb_2024 ["read_log.py"; "time"]
  = ([PStr "Couldn't find file at job4/process.log"], Returned).
Proof.
  apply (main_prints_no_value_without_terminal Sample2.disk
           (fun _ => ["job2/process.log"; "job4/process.log"])
           Sample.feb_2024 ["read_log.py"; "time"]).
  - simpl. lia.
  - simpl. left. reflexivity.
  - intros f text [<-|[<-|[]]] Hfs; [|discriminate Hfs].
    injection Hfs as <-. vm_compute. intros c [<-|[<-|[]]]; reflexivity.
Defined.

Lemma in_main_loop (fs : string -> option string) (now : datetime)
    (mode : string) (files : list string) (x : printed) :
  In x (main_loop fs now mode files) ->
  exists f, In f files /\ In x (file_output fs now mode f).
Proof.
  induction files as [|f files IH]; simpl; [intros []|].
  intros H. apply in_app_or in H as [H|H].
  - exists f. auto.
  - destruct (IH H) as (f' & Hin & Hx). exists f'. auto.
Qed.

Lemma read_log_print_no_value (fs : string -> option string) (f : string)
    (n : Z) :
  ~ In (PInt n) (read_log_print fs f).
Proof.
  unfold read_log_print. destruct (fs f); simpl; [tauto|].
  intros [H|[]]. discriminate H.
Qed.

Lemma read_log_Some_report_ok (fs : string -> option string) (now : datetime)
    (f : string) (r : JobReport) :
  read_log fs now f = Ok (Some r) -> report_ok r.
Proof.
  intros H. destruct (fs f) as [text|] eqn:Hfs.
  - apply (read_log_Some _ _ _ _ _ Hfs) in H.
    apply (dispatch_all_report_ok now _ _ _ (new_report_ok f) H).
  - unfold read_log in H. rewrite Hfs in H. discriminate H.
Qed.

(** A value printed in the memory or the disk mode is an entry of the
    [usage] of a report that [read_log] returned. *)
Lemma file_output_usage_value (fs : string -> option string) (now : datetime)
    (mode f : string) (n : Z) :
  mode = "memory" \/ mode = "disk" ->
  In (PInt n) (file_output fs now mode f) ->
  exists r u k, read_log fs now f = Ok (Some r) /\ usage r = Some u /\
    u !! k = Some n.
Proof.
  intros Hmode H. unfold file_output in H. apply in_app_or in H as [H|H].
  { exfalso. exact (read_log_print_no_value fs f n H). }
  unfold try_file in H.
  destruct (read_log fs now f) as [[r|]|e]; simpl in H.
  - exists r. unfold select_field in H.
    destruct Hmode as [-> | ->]; simpl in H;
      (destruct (usage r) as [u|]; [|destruct H]);
      exists u.
    + exists "memUsage". destruct (u !! "memUsage"); [|destruct H].
      destruct H as [[= <-]|[]]. auto.
    + exists "diskUsage". destruct (u !! "diskUsage"); [|destruct H].
      destruct H as [[= <-]|[]]. auto.
  - destruct Hmode as [-> | ->]; simpl in H; destruct H.
  - destruct H.
Qed.

(** X15.  In the memory and in the disk mode [main] never prints a
    negative number. *)
Theorem main_usage_values_not_negative (fs : string -> option string)
    (glob : string -> list string) (now : datetime) (argv : list string)
    (n : Z) :
  nth 1 argv "" = "memory" \/ nth 1 argv "" = "disk" ->
  In (PInt n) (fst (main fs glob now argv)) ->
  0 <= n.
Proof.
  intros Hmode H. unfold main in H.
  destruct (_ || _); simpl in H.
  { destruct H as [H|[]]. discriminate H. }
  apply in_main_loop in H as (f & _ & H).
  apply (file_output_usage_value _ _ _ _ _ Hmode) in H as (r & u & k & Hr & Hu & Hk).
  apply read_log_Some_report_ok in Hr. destruct Hr as (_ & _ & _ & _ & H5).
  apply (H5 u Hu k n Hk).
Qed.

Lemma main_usage_values_not_negative_witness : 0 <= 1024.
Proof.
  apply (main_usage_values_not_negative Sample2.disk Sample2.glob_jobs
           Sample.feb_2024 ["read_log.py"; "disk"] 1024).
  - right. reflexivity.
  - vm_compute. left. reflexivity.
Defined.

(** X16.  [main] ends with exit code 1, having printed only the usage
    message, exactly when the mode is missing or is not one of [time],
    [memory], [disk] (as written: no case folding, no stripping);
    what the files hold then does not matter.  In every other case it
    returns normally. *)
Theorem main_invalid_selection (fs : string -> option string)
    (glob : string -> list string) (now : datetime) (argv : list string) :
  ((length argv <= 1)%nat \/ ~ In (nth 1 argv "") modes <->
   main fs glob now argv
     = ([PStr "Invalid selection! Please specify mode (time/memory)"], Exited 1)) /\
  ((1 < length argv)%nat /\ In (nth 1 argv "") modes <->
   snd (main fs glob now argv) = Returned).
Proof.
  unfold main.
  assert (Hin : existsb (String.eqb (nth 1 argv "")) modes = true <->
                In (nth 1 argv "") modes).
  { rewrite existsb_exists. split.
    - intros (m & Hm & He). apply String.eqb_eq in He. subst m. exact Hm.
    - intros H. exists (nth 1 argv ""). split; [exact H | apply String.eqb_refl]. }
  destruct (existsb (String.eqb (nth 1 argv "")) modes) eqn:He;
    destruct (length argv <=? 1)%nat eqn:Hlen;
    [apply Nat.leb_le in Hlen | apply Nat.leb_gt in Hlen
    |apply Nat.leb_le in Hlen | apply Nat.leb_gt in Hlen];
    cbn [orb negb snd].
  - split; split.
    + reflexivity.
    + intros _. left. exact Hlen.
    + intros [H _]. lia.
    + discriminate.
  - pose proof (proj1 Hin eq_refl) as Hm. split; split.
    + intros [H|H]; [lia | contradiction].
    + discriminate.
    + reflexivity.
    + intros _. split; assumption.
  - split; split.
    + reflexivity.
    + intros _. left. exact Hlen.
    + intros [H _]. lia.
    + discriminate.
  - assert (Hn : ~ In (nth 1 argv "") modes).
    { intros H. apply Hin in H. discriminate H. }
    split; split.
    + reflexivity.
    + intros _. right. exact Hn.
    + intros [_ H]. contradiction.
    + discriminate.
Qed.

(** X12.  A file without a line that starts with three dots, be it
    empty or not a log at all, gives a report that holds the path and
    nothing else: nothing is dispatched, so nothing is checked. *)
Theorem read_log_without_separator (fs : string -> option string)
    (now : datetime) (p text : string) :
  fs p = Some text ->
  (forall l, In l (Str.file_lines text) -> Str.startswith "..." l = false) ->
  read_log fs now p = Ok (Some (new_report p)).
Proof.
  intros Hfs H. rewrite (read_log_chunks fs now p text Hfs).
  unfold chunks_of. rewrite (chunks_from_no_separator _ "" H). reflexivity.
Qed.

Lemma read_log_without_separator_witness :
  read_log (Sample.one_file "notes.txt" "005 not a log
 ... dots that do not begin the line
")
           Sample.feb_2024 "notes.txt"
  = Ok (Some (new_report "notes.txt")).
Proof.
  apply (read_log_without_separator _ Sample.feb_2024 "notes.txt"
           "005 not a log
 ... dots that do not begin the line
").
  - reflexivity.
  - simpl. intros l [<-|[<-|[]]]; reflexivity.
Defined.
